(** * radicalbit-ai-monitoring: model-quality DTOs and the regression
      fixtures of the Spark job

    Part I embeds [api/app/models/metrics/model_quality_dto.py]: the pydantic
    classes as records, their constructors as validators over untyped
    mappings, and the dispatch of [ModelQualityDTO.from_dict].

    Part II embeds the expected values of
    [spark/tests/regression_current_test.py] as binary64 data, with the
    assertions the tests make about them. The calculators the tests call
    are not part of the sources; where a statement needs one, it is
    modelled from the specification and marked as such. *)

From Stdlib Require Import PrimFloat SpecFloat FloatOps FloatAxioms ZArith List.
From Stdlib Require Import Ascii String.
From Stdlib Require Import Sorting.Sorted.
From stdpp Require Import gmap strings list.
Set Warnings "-inexact-float,-register-all,-clear-no-such-hyp".

(** ** Untyped input: what a Python [Dict] read back from JSON holds *)

Inductive pyobj :=
  | VNone
  | VBool (b : bool)
  | VInt (z : Z)
  | VFloat (f : float)
  | VStr (s : string)
  | VList (l : list pyobj)
  | VDict (d : gmap string pyobj).

(** Keyword arguments [**model_quality_data]: keys are strings. *)
Abbreviation kwargs := (gmap string pyobj).

(** ** Exceptions raised by the module *)

(** [ValidationError] is pydantic's; [MetricsInternalError] is the one the
    module raises itself, with its message. *)
Inductive exn :=
  | ValidationError
  | MetricsInternalError (msg : string).

Inductive result (A : Type) :=
  | Ok (a : A)
  | Raise (e : exn).
Arguments Ok {A} a.
Arguments Raise {A} e.

Definition result_map {A B} (f : A -> B) (r : result A) : result B :=
  match r with
  | Ok a => Ok (f a)
  | Raise e => Raise e
  end.

(** A pydantic constructor either builds the instance or raises
    [ValidationError]. *)
Definition construct {A} (o : option A) : result A :=
  match o with
  | Some a => Ok a
  | None => Raise ValidationError
  end.

(** ** Field aliases: [alias_generator=to_camel] *)

Definition upper (c : ascii) : ascii :=
  let n := nat_of_ascii c in
  if (97 <=? n)%nat && (n <=? 122)%nat then ascii_of_nat (n - 32) else c.

(** pydantic's [to_camel] on lower snake_case identifiers, which is what
    every field name of this module is: an underscore is dropped and the
    character after it is upper-cased. *)
Fixpoint camel_from (up : bool) (s : string) : string :=
  match s with
  | EmptyString => EmptyString
  | String c s' =>
      if Ascii.eqb c "_" then camel_from true s'
      else String (if up then upper c else c) (camel_from false s')
  end.

Definition to_camel (s : string) : string := camel_from false s.

(** [ConfigDict(populate_by_name=True, alias_generator=to_camel)]: a field is
    read under its alias, and under its name when the alias is absent.
    A class without that configuration reads the name only. *)
Inductive config := ByAliasOrName | ByName.

Definition field (c : config) (name : string) (d : kwargs) : option pyobj :=
  match c with
  | ByAliasOrName =>
      match d !! to_camel name with
      | Some v => Some v
      | None => d !! name
      end
  | ByName => d !! name
  end.

(** The keys under which a class with configuration [c] reads [name]. *)
Definition field_keys (c : config) (name : string) : list string :=
  match c with
  | ByAliasOrName => [to_camel name; name]
  | ByName => [name]
  end.

(** A field without default: absent is an error. *)
Definition required {A} (validate : pyobj -> option A) (o : option pyobj)
  : option A :=
  match o with
  | Some v => validate v
  | None => None
  end.

(** [Optional[T] = None]: absent and [None] both give [None]. *)
Definition optional {A} (validate : pyobj -> option A) (o : option pyobj)
  : option (option A) :=
  match o with
  | None => Some None
  | Some VNone => Some None
  | Some v => Some <$> validate v
  end.

(** [List[T]] *)
Definition list_of {A} (validate : pyobj -> option A) (v : pyobj)
  : option (list A) :=
  match v with
  | VList l => mapM validate l
  | _ => None
  end.

(** A field whose type is a model class, given as a mapping. *)
Definition model_of {A} (init : kwargs -> option A) (v : pyobj) : option A :=
  match v with
  | VDict d => init d
  | _ => None
  end.

(** pydantic's validators of the scalar types [float], [int] and [str].
    Which inputs they coerce (numeric strings, booleans, integral floats)
    is the library's business; the classes below are stated over any
    choice of them. *)
Class Scalars := {
  validate_float : pyobj -> option float;
  validate_int : pyobj -> option Z;
  validate_str : pyobj -> option string
}.

(** ** The classes *)

Module MetricsBase.
Record t := mk {
  f1 : option float;
  accuracy : option float;
  precision : option float;
  recall : option float;
  f_measure : option float;
  weighted_precision : option float;
  weighted_recall : option float;
  weighted_f_measure : option float;
  weighted_true_positive_rate : option float;
  weighted_false_positive_rate : option float;
  true_positive_rate : option float;
  false_positive_rate : option float;
  area_under_roc : option float;
  area_under_pr : option float
}.

Definition cfg := ByAliasOrName.

Definition names : list string :=
  ["f1"; "accuracy"; "precision"; "recall"; "f_measure";
   "weighted_precision"; "weighted_recall"; "weighted_f_measure";
   "weighted_true_positive_rate"; "weighted_false_positive_rate";
   "true_positive_rate"; "false_positive_rate";
   "area_under_roc"; "area_under_pr"].

Definition required_names : list string := [].

Definition validate `{Scalars} (d : kwargs) : option t :=
  f1 ← optional validate_float (field cfg "f1" d);
  accuracy ← optional validate_float (field cfg "accuracy" d);
  precision ← optional validate_float (field cfg "precision" d);
  recall ← optional validate_float (field cfg "recall" d);
  f_measure ← optional validate_float (field cfg "f_measure" d);
  weighted_precision ←
    optional validate_float (field cfg "weighted_precision" d);
  weighted_recall ← optional validate_float (field cfg "weighted_recall" d);
  weighted_f_measure ←
    optional validate_float (field cfg "weighted_f_measure" d);
  weighted_true_positive_rate ←
    optional validate_float (field cfg "weighted_true_positive_rate" d);
  weighted_false_positive_rate ←
    optional validate_float (field cfg "weighted_false_positive_rate" d);
  true_positive_rate ←
    optional validate_float (field cfg "true_positive_rate" d);
  false_positive_rate ←
    optional validate_float (field cfg "false_positive_rate" d);
  area_under_roc ← optional validate_float (field cfg "area_under_roc" d);
  area_under_pr ← optional validate_float (field cfg "area_under_pr" d);
  Some (mk f1 accuracy precision recall f_measure weighted_precision
           weighted_recall weighted_f_measure weighted_true_positive_rate
           weighted_false_positive_rate true_positive_rate
           false_positive_rate area_under_roc area_under_pr).
End MetricsBase.

(** [class BinaryClassificationModelQuality(MetricsBase)]: the inherited
    fields are kept as the [base] record. *)
Module BinaryClassificationModelQuality.
Record t := mk {
  base : MetricsBase.t;
  true_positive_count : Z;
  false_positive_count : Z;
  true_negative_count : Z;
  false_negative_count : Z
}.

Definition cfg := ByAliasOrName.

Definition required_names : list string :=
  ["true_positive_count"; "false_positive_count";
   "true_negative_count"; "false_negative_count"].

Definition names : list string := MetricsBase.names ++ required_names.

Definition validate `{Scalars} (d : kwargs) : option t :=
  base ← MetricsBase.validate d;
  true_positive_count ←
    required validate_int (field cfg "true_positive_count" d);
  false_positive_count ←
    required validate_int (field cfg "false_positive_count" d);
  true_negative_count ←
    required validate_int (field cfg "true_negative_count" d);
  false_negative_count ←
    required validate_int (field cfg "false_negative_count" d);
  Some (mk base true_positive_count false_positive_count
           true_negative_count false_negative_count).
End BinaryClassificationModelQuality.

(** [class Distribution(BaseModel)]: no [model_config], hence no alias. *)
Module Distribution.
Record t := mk {
  timestamp : string;
  value : option float
}.

Definition cfg := ByName.

Definition names : list string := ["timestamp"; "value"].

Definition validate `{Scalars} (d : kwargs) : option t :=
  timestamp ← required validate_str (field cfg "timestamp" d);
  value ← optional validate_float (field cfg "value" d);
  Some (mk timestamp value).

(** [List[Distribution]] *)
Definition series `{Scalars} : pyobj -> option (list t) :=
  list_of (model_of validate).
End Distribution.

Module GroupedMetricsBase.
Record t := mk {
  f1 : option (list Distribution.t);
  accuracy : option (list Distribution.t);
  precision : list Distribution.t;
  recall : list Distribution.t;
  f_measure : list Distribution.t;
  weighted_precision : option (list Distribution.t);
  weighted_recall : option (list Distribution.t);
  weighted_f_measure : option (list Distribution.t);
  weighted_true_positive_rate : option (list Distribution.t);
  weighted_false_positive_rate : option (list Distribution.t);
  true_positive_rate : list Distribution.t;
  false_positive_rate : list Distribution.t;
  area_under_roc : option (list Distribution.t);
  area_under_pr : option (list Distribution.t)
}.

Definition cfg := ByAliasOrName.

Definition names : list string := MetricsBase.names.

Definition required_names : list string :=
  ["precision"; "recall"; "f_measure";
   "true_positive_rate"; "false_positive_rate"].

Definition validate `{Scalars} (d : kwargs) : option t :=
  f1 ← optional Distribution.series (field cfg "f1" d);
  accuracy ← optional Distribution.series (field cfg "accuracy" d);
  precision ← required Distribution.series (field cfg "precision" d);
  recall ← required Distribution.series (field cfg "recall" d);
  f_measure ← required Distribution.series (field cfg "f_measure" d);
  weighted_precision ←
    optional Distribution.series (field cfg "weighted_precision" d);
  weighted_recall ←
    optional Distribution.series (field cfg "weighted_recall" d);
  weighted_f_measure ←
    optional Distribution.series (field cfg "weighted_f_measure" d);
  weighted_true_positive_rate ←
    optional Distribution.series (field cfg "weighted_true_positive_rate" d);
  weighted_false_positive_rate ←
    optional Distribution.series
      (field cfg "weighted_false_positive_rate" d);
  true_positive_rate ←
    required Distribution.series (field cfg "true_positive_rate" d);
  false_positive_rate ←
    required Distribution.series (field cfg "false_positive_rate" d);
  area_under_roc ←
    optional Distribution.series (field cfg "area_under_roc" d);
  area_under_pr ← optional Distribution.series (field cfg "area_under_pr" d);
  Some (mk f1 accuracy precision recall f_measure weighted_precision
           weighted_recall weighted_f_measure weighted_true_positive_rate
           weighted_false_positive_rate true_positive_rate
           false_positive_rate area_under_roc area_under_pr).
End GroupedMetricsBase.

Module CurrentBinaryClassificationModelQuality.
Record t := mk {
  global_metrics : BinaryClassificationModelQuality.t;
  grouped_metrics : GroupedMetricsBase.t
}.

Definition cfg := ByAliasOrName.

Definition names : list string := ["global_metrics"; "grouped_metrics"].

Definition required_names : list string := names.

Definition validate `{Scalars} (d : kwargs) : option t :=
  global_metrics ←
    required (model_of BinaryClassificationModelQuality.validate)
      (field cfg "global_metrics" d);
  grouped_metrics ←
    required (model_of GroupedMetricsBase.validate)
      (field cfg "grouped_metrics" d);
  Some (mk global_metrics grouped_metrics).
End CurrentBinaryClassificationModelQuality.

Module ClassMetrics.
Record t := mk {
  class_name : string;
  metrics : MetricsBase.t;
  grouped_metrics : option GroupedMetricsBase.t
}.

Definition cfg := ByAliasOrName.

Definition names : list string :=
  ["class_name"; "metrics"; "grouped_metrics"].

Definition validate `{Scalars} (d : kwargs) : option t :=
  class_name ← required validate_str (field cfg "class_name" d);
  metrics ←
    required (model_of MetricsBase.validate) (field cfg "metrics" d);
  grouped_metrics ←
    optional (model_of GroupedMetricsBase.validate)
      (field cfg "grouped_metrics" d);
  Some (mk class_name metrics grouped_metrics).
End ClassMetrics.

(** [class GlobalMetrics(MetricsBase)] *)
Module GlobalMetrics.
Record t := mk {
  base : MetricsBase.t;
  confusion_matrix : list (list Z)
}.

Definition cfg := ByAliasOrName.

Definition names : list string := MetricsBase.names ++ ["confusion_matrix"].

Definition validate `{Scalars} (d : kwargs) : option t :=
  base ← MetricsBase.validate d;
  confusion_matrix ←
    required (list_of (list_of validate_int))
      (field cfg "confusion_matrix" d);
  Some (mk base confusion_matrix).
End GlobalMetrics.

Module MultiClassificationModelQuality.
Record t := mk {
  classes : list string;
  class_metrics : list ClassMetrics.t;
  global_metrics : GlobalMetrics.t
}.

Definition cfg := ByAliasOrName.

Definition names : list string :=
  ["classes"; "class_metrics"; "global_metrics"].

Definition required_names : list string := names.

Definition validate `{Scalars} (d : kwargs) : option t :=
  classes ← required (list_of validate_str) (field cfg "classes" d);
  class_metrics ←
    required (list_of (model_of ClassMetrics.validate))
      (field cfg "class_metrics" d);
  global_metrics ←
    required (model_of GlobalMetrics.validate)
      (field cfg "global_metrics" d);
  Some (mk classes class_metrics global_metrics).
End MultiClassificationModelQuality.

(** [class RegressionMetricsBase(BaseModel)]: declared with the fields of
    [BaseRegressionMetrics] below; no other class or function of the module
    mentions it. *)

Module BaseRegressionMetrics.
Record t := mk {
  r2 : option float;
  mae : option float;
  mse : option float;
  variance : option float;
  mape : option float;
  rmse : option float;
  adj_r2 : option float
}.

Definition cfg := ByAliasOrName.

Definition names : list string :=
  ["r2"; "mae"; "mse"; "variance"; "mape"; "rmse"; "adj_r2"].

Definition required_names : list string := [].

Definition validate `{Scalars} (d : kwargs) : option t :=
  r2 ← optional validate_float (field cfg "r2" d);
  mae ← optional validate_float (field cfg "mae" d);
  mse ← optional validate_float (field cfg "mse" d);
  variance ← optional validate_float (field cfg "variance" d);
  mape ← optional validate_float (field cfg "mape" d);
  rmse ← optional validate_float (field cfg "rmse" d);
  adj_r2 ← optional validate_float (field cfg "adj_r2" d);
  Some (mk r2 mae mse variance mape rmse adj_r2).
End BaseRegressionMetrics.

Module GroupedBaseRegressionMetrics.
Record t := mk {
  r2 : list Distribution.t;
  mae : list Distribution.t;
  mse : list Distribution.t;
  variance : list Distribution.t;
  mape : list Distribution.t;
  rmse : list Distribution.t;
  adj_r2 : list Distribution.t
}.

Definition cfg := ByAliasOrName.

Definition names : list string := BaseRegressionMetrics.names.

Definition validate `{Scalars} (d : kwargs) : option t :=
  r2 ← required Distribution.series (field cfg "r2" d);
  mae ← required Distribution.series (field cfg "mae" d);
  mse ← required Distribution.series (field cfg "mse" d);
  variance ← required Distribution.series (field cfg "variance" d);
  mape ← required Distribution.series (field cfg "mape" d);
  rmse ← required Distribution.series (field cfg "rmse" d);
  adj_r2 ← required Distribution.series (field cfg "adj_r2" d);
  Some (mk r2 mae mse variance mape rmse adj_r2).
End GroupedBaseRegressionMetrics.

(** [class RegressionModelQuality(BaseRegressionMetrics): pass] *)
Module RegressionModelQuality.
Definition t := BaseRegressionMetrics.t.
Definition names := BaseRegressionMetrics.names.
Definition required_names := BaseRegressionMetrics.required_names.
Definition validate `{Scalars} : kwargs -> option t :=
  BaseRegressionMetrics.validate.
End RegressionModelQuality.

Module CurrentRegressionModelQuality.
Record t := mk {
  global_metrics : BaseRegressionMetrics.t;
  grouped_metrics : GroupedBaseRegressionMetrics.t
}.

Definition cfg := ByAliasOrName.

Definition names : list string := ["global_metrics"; "grouped_metrics"].

Definition required_names : list string := names.

Definition validate `{Scalars} (d : kwargs) : option t :=
  global_metrics ←
    required (model_of BaseRegressionMetrics.validate)
      (field cfg "global_metrics" d);
  grouped_metrics ←
    required (model_of GroupedBaseRegressionMetrics.validate)
      (field cfg "grouped_metrics" d);
  Some (mk global_metrics grouped_metrics).
End CurrentRegressionModelQuality.

(** ** The enumerations the dispatch tests *)

(** Modelled from the spec: [app.models.model_dto.ModelType] is imported, not
    declared, by the module. The spec names the members BINARY, MULTI_CLASS
    and REGRESSION and speaks of unsupported values reaching the dispatch;
    such a value is kept with the text the f-string of the error renders
    for it. *)
Inductive ModelType :=
  | BINARY
  | MULTI_CLASS
  | REGRESSION
  | UnsupportedModelType (rendered : string).

(** Modelled from the spec: [app.models.dataset_type.DatasetType], imported
    in the same way; members REFERENCE and CURRENT. *)
Inductive DatasetType :=
  | REFERENCE
  | CURRENT
  | UnsupportedDatasetType (rendered : string).

(** ** ModelQualityDTO *)

(** The union type of [ModelQualityDTO.model_quality]. *)
Inductive ModelQuality :=
  | IsBinaryClassificationModelQuality
      (q : BinaryClassificationModelQuality.t)
  | IsCurrentBinaryClassificationModelQuality
      (q : CurrentBinaryClassificationModelQuality.t)
  | IsMultiClassificationModelQuality
      (q : MultiClassificationModelQuality.t)
  | IsRegressionModelQuality
      (q : RegressionModelQuality.t)
  | IsCurrentRegressionModelQuality
      (q : CurrentRegressionModelQuality.t).

Module ModelQualityDTO.
Section WithJobStatus.
(** [app.models.job_status.JobStatus] is imported; the DTO only stores
    it. *)
Variable JobStatus : Type.
Context `{Scalars}.

(** The DTO is built by keyword from an already typed [job_status] and
    either [None] or an instance of one member of the union, which pydantic
    stores as it is. *)
Record t := mk {
  job_status : JobStatus;
  model_quality : option ModelQuality
}.

Definition _create_binary_model_quality
    (dataset_type : DatasetType) (model_quality_data : kwargs)
  : result ModelQuality :=
  match dataset_type with
  | REFERENCE =>
      result_map IsBinaryClassificationModelQuality
        (construct
           (BinaryClassificationModelQuality.validate model_quality_data))
  | CURRENT =>
      result_map IsCurrentBinaryClassificationModelQuality
        (construct
           (CurrentBinaryClassificationModelQuality.validate
              model_quality_data))
  | UnsupportedDatasetType rendered =>
      Raise (MetricsInternalError ("Invalid dataset type " ++ rendered))
  end.

Definition _create_regression_model_quality
    (dataset_type : DatasetType) (model_quality_data : kwargs)
  : result ModelQuality :=
  match dataset_type with
  | REFERENCE =>
      result_map IsRegressionModelQuality
        (construct (RegressionModelQuality.validate model_quality_data))
  | CURRENT =>
      result_map IsCurrentRegressionModelQuality
        (construct
           (CurrentRegressionModelQuality.validate model_quality_data))
  | UnsupportedDatasetType rendered =>
      Raise (MetricsInternalError ("Invalid dataset type " ++ rendered))
  end.

Definition _create_model_quality
    (model_type : ModelType) (dataset_type : DatasetType)
    (model_quality_data : kwargs)
  : result ModelQuality :=
  match model_type with
  | BINARY =>
      _create_binary_model_quality dataset_type model_quality_data
  | MULTI_CLASS =>
      result_map IsMultiClassificationModelQuality
        (construct
           (MultiClassificationModelQuality.validate model_quality_data))
  | REGRESSION =>
      _create_regression_model_quality dataset_type model_quality_data
  | UnsupportedModelType rendered =>
      Raise (MetricsInternalError ("Invalid model type " ++ rendered))
  end.

(** [not model_quality_data]: [None] and the empty mapping are falsy. *)
Definition falsy (model_quality_data : option kwargs) : bool :=
  match model_quality_data with
  | None => true
  | Some d => Nat.eqb (size d) 0
  end.

Definition from_dict
    (dataset_type : DatasetType) (model_type : ModelType)
    (job_status : JobStatus) (model_quality_data : option kwargs)
  : result t :=
  if falsy model_quality_data then Ok (mk job_status None)
  else
    match model_quality_data with
    | Some d =>
        result_map (fun model_quality => mk job_status (Some model_quality))
          (_create_model_quality model_type dataset_type d)
    | None => Ok (mk job_status None)
    end.
End WithJobStatus.
End ModelQualityDTO.

(** * Part II: the regression fixtures of the Spark job

    The expected values of [spark/tests/regression_current_test.py], as the
    tests write them: Python floats are binary64 numbers, Python ints are
    integers. *)

(** ** Shapes of the reports *)

(** The statistics of a dataset, as [test_current_statistics] dumps them. *)
Module Statistics.
Record t := mk {
  n_variables : Z;
  n_observations : Z;
  missing_cells : Z;
  missing_cells_perc : float;
  duplicate_rows : Z;
  duplicate_rows_perc : float;
  numeric : Z;
  categorical : Z;
  datetime : Z
}.
End Statistics.

Module MissingValue.
Record t := mk {
  count : Z;
  percentage : float
}.
End MissingValue.

Module MedianMetrics.
Record t := mk {
  perc_25 : float;
  median : float;
  perc_75 : float
}.
End MedianMetrics.

Module Histogram.
Record t := mk {
  buckets : list float;
  reference_values : list Z;
  current_values : list Z
}.
End Histogram.

(** The metrics of one column. The dump leaves [class_median_metrics] out
    for the target and has it empty for every feature; its entries never
    occur in these fixtures and are counted only. *)
Module FeatureMetrics.
Record t := mk {
  feature_name : string;
  type : string;
  missing_value : MissingValue.t;
  mean : float;
  std : float;
  min : float;
  max : float;
  median_metrics : MedianMetrics.t;
  class_median_metrics : option nat;
  histogram : Histogram.t
}.
End FeatureMetrics.

Module DataQuality.
Record t := mk {
  n_observations : Z;
  target_metrics : FeatureMetrics.t;
  feature_metrics : list FeatureMetrics.t
}.
End DataQuality.

(** The seven regression metrics of one computation. *)
Module RegressionMetrics.
Record t := mk {
  mae : float;
  mape : float;
  mse : float;
  rmse : float;
  r2 : float;
  adj_r2 : float;
  variance : float
}.
End RegressionMetrics.

(** One point of a grouped series: the start of the time bucket as the job
    prints it, and the value of the metric on the rows of that bucket. *)
Module Point.
Record t := mk {
  timestamp : string;
  value : float
}.
End Point.

Module GroupedRegressionMetrics.
Record t := mk {
  mae : list Point.t;
  mape : list Point.t;
  mse : list Point.t;
  rmse : list Point.t;
  r2 : list Point.t;
  adj_r2 : list Point.t;
  variance : list Point.t
}.
End GroupedRegressionMetrics.

Module RegressionModelQualityReport.
Record t := mk {
  global_metrics : RegressionMetrics.t;
  grouped_metrics : GroupedRegressionMetrics.t
}.
End RegressionModelQualityReport.

Inductive DriftType := KS | CHI2.

Module DriftCalc.
Record t := mk {
  type : DriftType;
  value : float;
  has_drift : bool
}.
End DriftCalc.

Module FeatureDrift.
Record t := mk {
  feature_name : string;
  drift_calc : DriftCalc.t
}.
End FeatureDrift.

(** ** The expected values *)

(** [expected] of [test_current_statistics]. *)
Definition expected_statistics : Statistics.t := {|
  Statistics.n_variables := 14%Z;
  Statistics.n_observations := 100%Z;
  Statistics.missing_cells := 7%Z;
  Statistics.missing_cells_perc := 0.5%float;
  Statistics.duplicate_rows := 2%Z;
  Statistics.duplicate_rows_perc := 2.0%float;
  Statistics.numeric := 13%Z;
  Statistics.categorical := 0%Z;
  Statistics.datetime := 1%Z
|}.














(** The value [test_model_quality] compares the computed model quality
    with. *)
Definition expected_model_quality : RegressionModelQualityReport.t := {|
  RegressionModelQualityReport.global_metrics := {|
    RegressionMetrics.mae := 71.82559791564941%float;
    RegressionMetrics.mape := 64.05699022707124%float;
    RegressionMetrics.mse := 17820.506660010054%float;
    RegressionMetrics.rmse := 133.49347047706138%float;
    RegressionMetrics.r2 := 0.8210737408739541%float;
    RegressionMetrics.adj_r2 := 0.7987079584831984%float;
    RegressionMetrics.variance := 118288.02759401732%float
  |};
  RegressionModelQualityReport.grouped_metrics := {|
    GroupedRegressionMetrics.mae :=
      [Point.mk "2011-01-01 00:00:00" 35.67896665375808%float;
       Point.mk "2011-02-01 00:00:00" 89.13965238373855%float;
       Point.mk "2011-03-01 00:00:00" 91.54030847549438%float;
       Point.mk "2011-04-01 00:00:00" 63.352996826171875%float];
    GroupedRegressionMetrics.mape :=
      [Point.mk "2011-01-01 00:00:00" 106.34668638669385%float;
       Point.mk "2011-02-01 00:00:00" 50.266650033642435%float;
       Point.mk "2011-03-01 00:00:00" 53.63275529139244%float;
       Point.mk "2011-04-01 00:00:00" 14.766409719281478%float];
    GroupedRegressionMetrics.mse :=
      [Point.mk "2011-01-01 00:00:00" 2848.1117152678507%float;
       Point.mk "2011-02-01 00:00:00" 21631.812814960613%float;
       Point.mk "2011-03-01 00:00:00" 31460.34954782362%float;
       Point.mk "2011-04-01 00:00:00" 6540.166909402423%float];
    GroupedRegressionMetrics.rmse :=
      [Point.mk "2011-01-01 00:00:00" 53.36770292290882%float;
       Point.mk "2011-02-01 00:00:00" 147.07757414018158%float;
       Point.mk "2011-03-01 00:00:00" 177.37065582509305%float;
       Point.mk "2011-04-01 00:00:00" 80.87129842782556%float];
    GroupedRegressionMetrics.r2 :=
      [Point.mk "2011-01-01 00:00:00" 0.17834457710460982%float;
       Point.mk "2011-02-01 00:00:00" 0.3895389519246505%float;
       Point.mk "2011-03-01 00:00:00" 0.7043715304337479%float;
       Point.mk "2011-04-01 00:00:00" 0.9678020649997567%float];
    GroupedRegressionMetrics.adj_r2 :=
      [Point.mk "2011-01-01 00:00:00" (-0.3533148141806426)%float;
       Point.mk "2011-02-01 00:00:00" (-0.005465255653516854)%float;
       Point.mk "2011-03-01 00:00:00" 0.5417758721723092%float;
       Point.mk "2011-04-01 00:00:00" 1.1448907075010948%float];
    GroupedRegressionMetrics.variance :=
      [Point.mk "2011-01-01 00:00:00" 4720.867246089001%float;
       Point.mk "2011-02-01 00:00:00" 70942.48575413873%float;
       Point.mk "2011-03-01 00:00:00" 150522.0080596708%float;
       Point.mk "2011-04-01 00:00:00" 163422.9263027128%float]
  |}
|}.

(** [feature_metrics] of the drift [test_drift_regression] expects. *)
Definition expected_drift_regression : list FeatureDrift.t :=
  [FeatureDrift.mk "season"
     (DriftCalc.mk KS 0.7886320109%float true);
   FeatureDrift.mk "yr"
     (DriftCalc.mk KS 0.9986320109%float true);
   FeatureDrift.mk "mnth"
     (DriftCalc.mk KS 0.7510372975%float true);
   FeatureDrift.mk "holiday"
     (DriftCalc.mk KS 0.9686320109%float true);
   FeatureDrift.mk "weekday"
     (DriftCalc.mk KS 0.1475135386%float true);
   FeatureDrift.mk "workingday"
     (DriftCalc.mk KS 0.69%float true);
   FeatureDrift.mk "weathersit"
     (DriftCalc.mk KS 0.6219091927%float true);
   FeatureDrift.mk "temp"
     (DriftCalc.mk KS 0.5259741552%float true);
   FeatureDrift.mk "atemp"
     (DriftCalc.mk KS 0.5322880465%float true);
   FeatureDrift.mk "hum"
     (DriftCalc.mk KS 0.2230727748%float true);
   FeatureDrift.mk "windspeed"
     (DriftCalc.mk KS 0.2180156245%float true)].

(** [feature_metrics] of the drift [test_drift_regression_chi] expects. *)
Definition expected_drift_regression_chi : list FeatureDrift.t :=
  [FeatureDrift.mk "Sex"
     (DriftCalc.mk CHI2 0.0%float true);
   FeatureDrift.mk "pred_id"
     (DriftCalc.mk CHI2 0.2397280792131291%float false);
   FeatureDrift.mk "Length"
     (DriftCalc.mk KS 0.0239680774%float false);
   FeatureDrift.mk "Diameter"
     (DriftCalc.mk KS 0.0301533877%float false);
   FeatureDrift.mk "Height"
     (DriftCalc.mk KS 0.065718922%float true);
   FeatureDrift.mk "Whole_weight"
     (DriftCalc.mk KS 0.0023194914%float false);
   FeatureDrift.mk "Shucked_weight"
     (DriftCalc.mk KS 0.0030926552%float false);
   FeatureDrift.mk "Viscera_weight"
     (DriftCalc.mk KS 0.0038658189%float false);
   FeatureDrift.mk "Shell_weight"
     (DriftCalc.mk KS 0.010824293%float false)].

(** ** Python arithmetic on the values of the fixtures *)

(** [float(n)] for an integer; exact below 2^53, which covers every count
    of rows and cells. *)
Fixpoint float_of_pos (p : positive) : float :=
  match p with
  | xH => 1%float
  | xO p' => (2 * float_of_pos p')%float
  | xI p' => (2 * float_of_pos p' + 1)%float
  end.

Definition float_of_Z (z : Z) : float :=
  match z with
  | Z0 => 0%float
  | Zpos p => float_of_pos p
  | Zneg p => (- float_of_pos p)%float
  end.

(** [a / b] on two ints: a float, or ZeroDivisionError ([None]). *)
Definition truediv (a b : Z) : option float :=
  if (b =? 0)%Z then None else Some (float_of_Z a / float_of_Z b)%float.

(** [x == y] on an optional float and a float. *)
Definition float_eq (x : option float) (y : float) : bool :=
  match x with
  | Some x' => (x' =? y)%float
  | None => false
  end.




(** ** Statistics of a dataset *)

(** The two assertions [test_current_statistics] makes on the percentages:
    the first is written out in the test, the second follows from the
    comparison with [expected]. *)
Definition missing_cells_perc_consistent (s : Statistics.t) : bool :=
  float_eq
    (truediv (100 * Statistics.missing_cells s)
       (Statistics.n_variables s * Statistics.n_observations s))
    (Statistics.missing_cells_perc s).

Definition duplicate_rows_perc_consistent (s : Statistics.t) : bool :=
  float_eq
    (truediv (100 * Statistics.duplicate_rows s) (Statistics.n_observations s))
    (Statistics.duplicate_rows_perc s).

(** Modelled from the spec: [metrics.statistics.calculate_statistics_current]
    is imported by the test and missing from the sources. Section 4.3 gives
    the per-dataset statistics from the counts of the dataset:
    missing_cells_perc = 100*missing_cells/(n_variables*n_observations) and
    duplicate_rows_perc = 100*duplicate_rows/n_observations. A dataset
    without columns or without rows has no percentages ([None]). *)
Definition calculate_statistics
    (n_variables n_observations missing_cells duplicate_rows : Z)
    (numeric categorical datetime : Z) : option Statistics.t :=
  missing_cells_perc ←
    truediv (100 * missing_cells) (n_variables * n_observations);
  duplicate_rows_perc ← truediv (100 * duplicate_rows) n_observations;
  Some (Statistics.mk n_variables n_observations missing_cells
          missing_cells_perc duplicate_rows duplicate_rows_perc
          numeric categorical datetime).

(** ** Regression model quality *)

(** Modelled from the spec: [utils.current_regression], whose
    [CurrentMetricsRegressionService.calculate_model_quality] the test calls,
    is missing from the sources. Section 4.4 gives the metrics of a set of
    rows, on the rows where target and prediction are both present:
    mae = mean(|y-p|), mse = mean((y-p)^2), rmse = sqrt(mse),
    mape = 100*mean(|y-p|/|y|) over the rows with y <> 0,
    r2 = 1 - SS_res/SS_tot, adj_r2 = 1 - (1-r2)*(n-1)/(n-p-1) with p the
    number of declared features, variance = population variance of the
    residuals; and the grouped series: one point per time bucket
    floor(timestamp, granularity) that has a row, in ascending order of
    the bucket start, each computed from the rows of its bucket alone. *)
Module ModelQualityCalculator.
Section Rows.
Variable Timestamp : Type.

(** floor(timestamp, granularity) for the granularity of the request, as the
    number of the instant the bucket starts at. *)
Variable floor : Timestamp -> Z.

(** Number of declared feature columns. *)
Variable p : Z.

Record Row := mk_row {
  timestamp : Timestamp;
  target : option float;
  prediction : option float
}.

(** A row with both values, reduced to its bucket and the two values. *)
Definition observation (r : Row) : option (Z * (float * float)) :=
  y ← target r; y' ← prediction r; Some (floor (timestamp r), (y, y')).

Definition observations (rows : list Row) : list (Z * (float * float)) :=
  omap observation rows.

Definition total (l : list float) : float := fold_left PrimFloat.add l 0%float.

Definition mean (l : list float) : float :=
  (total l / float_of_Z (Z.of_nat (length l)))%float.

Definition residual (o : float * float) : float := (fst o - snd o)%float.

Definition square (x : float) : float := (x * x)%float.

Definition mae (obs : list (float * float)) : float :=
  mean (map (fun o => abs (residual o)) obs).

Definition mse (obs : list (float * float)) : float :=
  mean (map (fun o => square (residual o)) obs).

Definition rmse (obs : list (float * float)) : float :=
  PrimFloat.sqrt (mse obs).

Definition mape (obs : list (float * float)) : float :=
  (100 * mean (map (fun o => abs (residual o) / abs (fst o))
                 (filter (fun o => (fst o =? 0)%float = false) obs)))%float.

Definition r2 (obs : list (float * float)) : float :=
  let ss_res := total (map (fun o => square (residual o)) obs) in
  let m := mean (map fst obs) in
  let ss_tot := total (map (fun o => square (fst o - m)) obs) in
  (1 - ss_res / ss_tot)%float.

Definition adj_r2 (obs : list (float * float)) : float :=
  let n := float_of_Z (Z.of_nat (length obs)) in
  (1 - (1 - r2 obs) * (n - 1) / (n - float_of_Z p - 1))%float.

Definition variance (obs : list (float * float)) : float :=
  let m := mean (map residual obs) in
  mean (map (fun o => square (residual o - m)) obs).

Definition bundle (obs : list (float * float)) : RegressionMetrics.t :=
  RegressionMetrics.mk (mae obs) (mape obs) (mse obs) (rmse obs) (r2 obs)
    (adj_r2 obs) (variance obs).

(** The buckets that have a row, in ascending order of their start, each
    with its rows in the order of the dataset. *)
Fixpoint add_observation (b : Z) (o : float * float)
    (g : list (Z * list (float * float))) : list (Z * list (float * float)) :=
  match g with
  | [] => [(b, [o])]
  | (b', os) :: g' =>
      if (b <? b')%Z then (b, [o]) :: g
      else if (b =? b')%Z then (b', os ++ [o]) :: g'
      else (b', os) :: add_observation b o g'
  end.

Definition buckets (rows : list Row) : list (Z * list (float * float)) :=
  fold_left (fun g bo => add_observation (fst bo) (snd bo) g)
    (observations rows) [].

(** A grouped series: the metric [f] of the bundle of every bucket. *)
Definition series (f : RegressionMetrics.t -> float) (rows : list Row)
  : list (Z * float) :=
  map (fun bo => (fst bo, f (bundle (snd bo)))) (buckets rows).

Definition global_metrics (rows : list Row) : RegressionMetrics.t :=
  bundle (map snd (observations rows)).
End Rows.
End ModelQualityCalculator.

(** ** Histograms *)

(** The edges of the fixtures in binary64: [n] steps of (hi - lo)/n from
    [lo], the last edge being [hi] itself. *)
Definition linspace (lo hi : float) (n : nat) : list float :=
  map (fun i =>
         (lo + float_of_Z (Z.of_nat i) * ((hi - lo) / float_of_Z (Z.of_nat n)))
         %float)
    (seq 0 n)
  ++ [hi].





(** Modelled from the spec: the HistogramBuilder of section 4.2 is missing
    from the sources. Over the non-missing reference values it lays
    [nBuckets] equal-width buckets on [min, max], the span being widened by
    a small epsilon when min = max; a bucket counts the values in
    [edge_i, edge_i+1), the last bucket being closed on both ends; current
    values are clipped into the range of the edges and counted against the
    same edges. The arithmetic is that of the fixtures, binary64: the edges
    are laid out by [linspace], which gives the edges of every histogram of
    the fixture bit for bit. *)
Module HistogramBuilder.
Section Builder.
Variable epsilon : float.
Variable nBuckets : nat.

Definition present (column : list (option float)) : list float :=
  omap id column.

Definition minimum (x : float) (l : list float) : float :=
  fold_left (fun m v => if (v <? m)%float then v else m) l x.

Definition maximum (x : float) (l : list float) : float :=
  fold_left (fun m v => if (m <? v)%float then v else m) l x.

Definition span (values : list float) : option (float * float) :=
  match values with
  | [] => None
  | x :: l =>
      let lo := minimum x l in
      let hi := maximum x l in
      Some (lo, if (lo =? hi)%float then (hi + epsilon)%float else hi)
  end.

Definition edges (lo hi : float) : list float := linspace lo hi nBuckets.

(** [a <= v < b], and [a <= v <= b] for the last bucket. *)
Definition in_bucket (last : bool) (a b v : float) : bool :=
  (a <=? v)%float && ((v <? b)%float || (last && (v <=? b)%float)).

Fixpoint count (f : float -> bool) (vs : list float) : Z :=
  match vs with
  | [] => 0%Z
  | v :: vs' => (Z.b2z (f v) + count f vs')%Z
  end.

Fixpoint counts (es : list float) (vs : list float) : list Z :=
  match es with
  | a :: (b :: rest) as tl =>
      count (in_bucket (match rest with [] => true | _ => false end) a b) vs
      :: counts tl vs
  | _ => []
  end.

Definition clip (first last v : float) : float :=
  if (v <? first)%float then first
  else if (last <? v)%float then last
  else v.

Definition histogram (reference current : list (option float))
  : option Histogram.t :=
  match span (present reference) with
  | Some (lo, hi) =>
      let es := edges lo hi in
      Some (Histogram.mk es
              (counts es (present reference))
              (counts es (map (clip (hd lo es) (List.last es hi))
                            (present current))))
  | None => None
  end.
End Builder.
End HistogramBuilder.

(** ** Vocabulary of the statements about histograms *)




(** The place of a binary64 value in the order of [<] and [<=]: infinities
    outermost, the finite values by sign, exponent and mantissa. A NaN has
    none. *)
Definition rank (x : spec_float) : option (Z * Z * Z) :=
  match x with
  | S754_nan => None
  | S754_infinity true => Some (-2, 0, 0)%Z
  | S754_infinity false => Some (2, 0, 0)%Z
  | S754_zero _ => Some (0, 0, 0)%Z
  | S754_finite true m e => Some (-1, - e, Zneg m)%Z
  | S754_finite false m e => Some (1, e, Zpos m)%Z
  end.

Definition lt3 (a b : Z * Z * Z) : Prop :=
  (a.1.1 < b.1.1
   \/ (a.1.1 = b.1.1
       /\ (a.1.2 < b.1.2 \/ (a.1.2 = b.1.2 /\ a.2 < b.2))))%Z.

Definition le3 (a b : Z * Z * Z) : Prop :=
  (a.1.1 < b.1.1
   \/ (a.1.1 = b.1.1
       /\ (a.1.2 < b.1.2 \/ (a.1.2 = b.1.2 /\ a.2 <= b.2))))%Z.

Definition ltb3 (x y : option (Z * Z * Z)) : bool :=
  match x, y with
  | Some a, Some b => bool_decide (lt3 a b)
  | _, _ => false
  end.

Definition leb3 (x y : option (Z * Z * Z)) : bool :=
  match x, y with
  | Some a, Some b => bool_decide (le3 a b)
  | _, _ => false
  end.





(** ** Vocabulary of the statements about the constructors *)

(** A key no field of a class with configuration [c] and fields [names] is
    read under. *)
Definition extra_key (c : config) (names : list string) (k : string) : Prop :=
  Forall (fun n => k ∉ field_keys c n) names.

(** The fields of the class [_create_model_quality] constructs for a pair of
    enum values, and those of them that have no default. *)
Definition selected_names (model_type : ModelType) (dataset_type : DatasetType)
  : list string :=
  match model_type, dataset_type with
  | BINARY, REFERENCE => BinaryClassificationModelQuality.names
  | BINARY, CURRENT => CurrentBinaryClassificationModelQuality.names
  | MULTI_CLASS, _ => MultiClassificationModelQuality.names
  | REGRESSION, REFERENCE => RegressionModelQuality.names
  | REGRESSION, CURRENT => CurrentRegressionModelQuality.names
  | _, _ => []
  end.

Definition selected_required_names
    (model_type : ModelType) (dataset_type : DatasetType) : list string :=
  match model_type, dataset_type with
  | BINARY, REFERENCE => BinaryClassificationModelQuality.required_names
  | BINARY, CURRENT => CurrentBinaryClassificationModelQuality.required_names
  | MULTI_CLASS, _ => MultiClassificationModelQuality.required_names
  | REGRESSION, REFERENCE => RegressionModelQuality.required_names
  | REGRESSION, CURRENT => CurrentRegressionModelQuality.required_names
  | _, _ => []
  end.

(** Scalar validators for evaluating the constructors on examples: the
    inputs pydantic takes over unchanged in every mode. *)
Definition exact_scalars : Scalars := {|
  validate_float v := match v with VFloat f => Some f | _ => None end;
  validate_int v := match v with VInt z => Some z | _ => None end;
  validate_str v := match v with VStr s => Some s | _ => None end
|}.

(** Example mappings. *)
Definition reference_regression_data : kwargs :=
  {[ "r2" := VFloat 0.5%float; "mae" := VFloat 2%float ]}.

Definition reference_regression_data_extra : kwargs :=
  <[ "unexpected" := VStr "x" ]> reference_regression_data.

(** The rows a grouping by bucket holds for bucket [b]. *)
Definition rows_of (b : Z) (g : list (Z * list (float * float)))
  : list (float * float) :=
  concat (map snd (filter (fun e => fst e = b) g)).

(** The columns of a drift report that were put to the CHI2 test. *)
Definition chi2_columns (report : list FeatureDrift.t) : list FeatureDrift.t :=
  List.filter
    (fun e =>
       match DriftCalc.type (FeatureDrift.drift_calc e) with
       | CHI2 => true
       | KS => false
       end)
    report.

(** ** Vocabulary of the further statements about the constructors *)

(** No key is read by two fields of a class with fields [names]. *)
Definition unambiguous (c : config) (names : list string) : Prop :=
  Forall
    (fun m =>
       Forall
         (fun n => m = n \/ Forall (fun k => k ∉ field_keys c n) (field_keys c m))
         names)
    names.

(** [RegressionModelQuality()] with every field at its default. *)
Definition no_regression_metrics : RegressionModelQuality.t :=
  BaseRegressionMetrics.mk None None None None None None None.

(** What the module's own error says for a pair of enum values, if the
    dispatch rejects the pair. *)
Definition rejection (model_type : ModelType) (dataset_type : DatasetType)
  : option string :=
  match model_type, dataset_type with
  | UnsupportedModelType rendered, _ =>
      Some ("Invalid model type " ++ rendered)%string
  | (BINARY | REGRESSION), UnsupportedDatasetType rendered =>
      Some ("Invalid dataset type " ++ rendered)%string
  | _, _ => None
  end.

(** A list of lists of ints and a list of strings as untyped values. *)
Definition matrix_value (rows : list (list Z)) : pyobj :=
  VList (map (fun row => VList (map VInt row)) rows).

Definition strings_value (l : list string) : pyobj := VList (map VStr l).

(** The seven series of [GroupedBaseRegressionMetrics], by field name. *)
Definition grouped_regression_series
  : list (string * (GroupedBaseRegressionMetrics.t -> list Distribution.t)) :=
  [("r2", GroupedBaseRegressionMetrics.r2);
   ("mae", GroupedBaseRegressionMetrics.mae);
   ("mse", GroupedBaseRegressionMetrics.mse);
   ("variance", GroupedBaseRegressionMetrics.variance);
   ("mape", GroupedBaseRegressionMetrics.mape);
   ("rmse", GroupedBaseRegressionMetrics.rmse);
   ("adj_r2", GroupedBaseRegressionMetrics.adj_r2)].

(** The class an instance of the union belongs to, as the pair of enum
    values that selects it; [None] for the dataset type where it is not
    looked at. *)
Definition selecting_pair (q : ModelQuality)
  : ModelType * option DatasetType :=
  match q with
  | IsBinaryClassificationModelQuality _ => (BINARY, Some REFERENCE)
  | IsCurrentBinaryClassificationModelQuality _ => (BINARY, Some CURRENT)
  | IsMultiClassificationModelQuality _ => (MULTI_CLASS, None)
  | IsRegressionModelQuality _ => (REGRESSION, Some REFERENCE)
  | IsCurrentRegressionModelQuality _ => (REGRESSION, Some CURRENT)
  end.

(** [MetricsBase()] with every field at its default. *)
Definition no_metrics : MetricsBase.t :=
  MetricsBase.mk None None None None None None None None None None None None
    None None.

(** A multi-class mapping with the given class names and confusion matrix,
    without per-class metrics and without global scores. *)
Definition multi_class_data (classes : list string) (rows : list (list Z))
  : kwargs :=
  {[ "classes" := strings_value classes;
     "class_metrics" := VList [];
     "global_metrics" :=
       VDict {[ "confusion_matrix" := matrix_value rows ]} ]}.

(** Further example mappings. *)
Definition snake_case_data : kwargs := {[ "adj_r2" := VFloat 0.9%float ]}.

Definition unknown_only_data : kwargs := {[ "unexpected" := VStr "x" ]}.

Definition bad_regression_data : kwargs := {[ "r2" := VStr "high" ]}.

Definition example_point : pyobj :=
  VDict {[ "timestamp" := VStr "2011-01-01 00:00:00";
           "value" := VFloat 35.5%float ]}.

Definition current_regression_data : kwargs :=
  {[ "global_metrics" := VDict {[ "r2" := VFloat 0.5%float ]};
     "grouped_metrics" :=
       VDict {[ "r2" := VList [example_point];
                "mae" := VList [example_point; example_point];
                "mse" := VList [];
                "variance" := VList [];
                "mape" := VList [];
                "rmse" := VList [];
                "adj_r2" := VList [] ]} ]}.

Definition current_binary_data : kwargs :=
  {[ "globalMetrics" :=
       VDict {[ "truePositiveCount" := VInt 4;
                "falsePositiveCount" := VInt 3;
                "true_negative_count" := VInt 2;
                "false_negative_count" := VInt 1 ]};
     "groupedMetrics" :=
       VDict {[ "precision" := VList [example_point];
                "recall" := VList [];
                "fMeasure" := VList [];
                "truePositiveRate" := VList [];
                "false_positive_rate" := VList [] ]} ]}.

Definition multi_class_metrics_data : kwargs :=
  {[ "classes" := strings_value ["a"; "b"];
     "classMetrics" :=
       VList [VDict {[ "className" := VStr "a"; "metrics" := VDict ∅ ]};
              VDict {[ "class_name" := VStr "b";
                       "metrics" := VDict {[ "f1" := VFloat 0.5%float ]} ]}];
     "globalMetrics" := VDict {[ "confusionMatrix" := matrix_value [] ]} ]}.

(** * Part I: the dispatch of [ModelQualityDTO.from_dict] *)

(** ** Field lookups *)

Example to_camel_true_positive_count :
  to_camel "true_positive_count" = "truePositiveCount".
Proof. reflexivity. Qed.

Example to_camel_adj_r2 : to_camel "adj_r2" = "adjR2".
Proof. reflexivity. Qed.

Example to_camel_f1 : to_camel "f1" = "f1".
Proof. reflexivity. Qed.

Lemma field_insert_ne c name k v (d : kwargs) :
  k ∉ field_keys c name -> field c name (<[k:=v]> d) = field c name d.
Proof.
  intros Hk. destruct c; simpl in *.
  - rewrite !lookup_insert_ne; [done | |]; intros ->; apply Hk; set_solver.
  - rewrite lookup_insert_ne; [done |]. intros ->. apply Hk. set_solver.
Qed.

Lemma field_None c name (d : kwargs) :
  (forall k, k ∈ field_keys c name -> d !! k = None) ->
  field c name d = None.
Proof.
  intros Hk. destruct c; simpl in *.
  - rewrite (Hk (to_camel name)) by set_solver. apply Hk. set_solver.
  - apply Hk. set_solver.
Qed.

Lemma extra_key_app c l1 l2 k :
  extra_key c (l1 ++ l2) k -> extra_key c l1 k /\ extra_key c l2 k.
Proof. unfold extra_key. apply Forall_app. Qed.

Lemma extra_key_elem c names k n :
  extra_key c names k -> n ∈ names -> k ∉ field_keys c n.
Proof. unfold extra_key. rewrite Forall_forall. auto. Qed.

Ltac extra_side H :=
  apply (extra_key_elem _ _ _ _ H); cbv;
  repeat first [ apply list_elem_of_here | apply list_elem_of_further ].

Ltac ignore_extra H := rewrite !field_insert_ne by extra_side H.

Lemma required_None {A} (validate : pyobj -> option A) :
  required validate None = None.
Proof. reflexivity. Qed.

(** If an earlier field already fails, so does the constructor. *)
Ltac skip_binds :=
  repeat match goal with
         | |- (None ≫= _) = None => reflexivity
         | |- (?m ≫= _) = None => destruct m; simpl; [| reflexivity]
         end.

Ltac missing_field Hn :=
  repeat (apply elem_of_cons in Hn as [-> | Hn];
          [ intros Hmiss; rewrite Hmiss, required_None; skip_binds;
            try reflexivity | ]);
  try (apply elem_of_nil in Hn; contradiction).

Section Constructors.
Context `{Scalars}.

(** *** Keys outside the schema are not read *)

Lemma MetricsBase_extra k v d :
  extra_key ByAliasOrName MetricsBase.names k ->
  MetricsBase.validate (<[k:=v]> d) = MetricsBase.validate d.
Proof.
  intros Hk. unfold MetricsBase.validate, MetricsBase.cfg.
  ignore_extra Hk. reflexivity.
Qed.

Lemma BinaryClassificationModelQuality_extra k v d :
  extra_key ByAliasOrName BinaryClassificationModelQuality.names k ->
  BinaryClassificationModelQuality.validate (<[k:=v]> d)
  = BinaryClassificationModelQuality.validate d.
Proof.
  intros Hk. apply extra_key_app in Hk as [Hbase Hk].
  unfold BinaryClassificationModelQuality.validate,
    BinaryClassificationModelQuality.cfg.
  rewrite MetricsBase_extra by assumption.
  ignore_extra Hk. reflexivity.
Qed.

Lemma CurrentBinaryClassificationModelQuality_extra k v d :
  extra_key ByAliasOrName CurrentBinaryClassificationModelQuality.names k ->
  CurrentBinaryClassificationModelQuality.validate (<[k:=v]> d)
  = CurrentBinaryClassificationModelQuality.validate d.
Proof.
  intros Hk. unfold CurrentBinaryClassificationModelQuality.validate,
    CurrentBinaryClassificationModelQuality.cfg.
  ignore_extra Hk. reflexivity.
Qed.

Lemma MultiClassificationModelQuality_extra k v d :
  extra_key ByAliasOrName MultiClassificationModelQuality.names k ->
  MultiClassificationModelQuality.validate (<[k:=v]> d)
  = MultiClassificationModelQuality.validate d.
Proof.
  intros Hk. unfold MultiClassificationModelQuality.validate,
    MultiClassificationModelQuality.cfg.
  ignore_extra Hk. reflexivity.
Qed.

Lemma RegressionModelQuality_extra k v d :
  extra_key ByAliasOrName RegressionModelQuality.names k ->
  RegressionModelQuality.validate (<[k:=v]> d)
  = RegressionModelQuality.validate d.
Proof.
  intros Hk. unfold RegressionModelQuality.validate,
    BaseRegressionMetrics.validate, BaseRegressionMetrics.cfg.
  ignore_extra Hk. reflexivity.
Qed.

Lemma CurrentRegressionModelQuality_extra k v d :
  extra_key ByAliasOrName CurrentRegressionModelQuality.names k ->
  CurrentRegressionModelQuality.validate (<[k:=v]> d)
  = CurrentRegressionModelQuality.validate d.
Proof.
  intros Hk. unfold CurrentRegressionModelQuality.validate,
    CurrentRegressionModelQuality.cfg.
  ignore_extra Hk. reflexivity.
Qed.

(** *** A required field that is absent makes the constructor fail *)

Lemma BinaryClassificationModelQuality_missing n d :
  n ∈ BinaryClassificationModelQuality.required_names ->
  field ByAliasOrName n d = None ->
  BinaryClassificationModelQuality.validate d = None.
Proof.
  intros Hn. unfold BinaryClassificationModelQuality.validate,
    BinaryClassificationModelQuality.cfg,
    BinaryClassificationModelQuality.required_names in *.
  missing_field Hn.
Qed.

Lemma CurrentBinaryClassificationModelQuality_missing n d :
  n ∈ CurrentBinaryClassificationModelQuality.required_names ->
  field ByAliasOrName n d = None ->
  CurrentBinaryClassificationModelQuality.validate d = None.
Proof.
  intros Hn. unfold CurrentBinaryClassificationModelQuality.validate,
    CurrentBinaryClassificationModelQuality.cfg,
    CurrentBinaryClassificationModelQuality.required_names,
    CurrentBinaryClassificationModelQuality.names in *.
  missing_field Hn.
Qed.

Lemma MultiClassificationModelQuality_missing n d :
  n ∈ MultiClassificationModelQuality.required_names ->
  field ByAliasOrName n d = None ->
  MultiClassificationModelQuality.validate d = None.
Proof.
  intros Hn. unfold MultiClassificationModelQuality.validate,
    MultiClassificationModelQuality.cfg,
    MultiClassificationModelQuality.required_names,
    MultiClassificationModelQuality.names in *.
  missing_field Hn.
Qed.

Lemma CurrentRegressionModelQuality_missing n d :
  n ∈ CurrentRegressionModelQuality.required_names ->
  field ByAliasOrName n d = None ->
  CurrentRegressionModelQuality.validate d = None.
Proof.
  intros Hn. unfold CurrentRegressionModelQuality.validate,
    CurrentRegressionModelQuality.cfg,
    CurrentRegressionModelQuality.required_names,
    CurrentRegressionModelQuality.names in *.
  missing_field Hn.
Qed.
End Constructors.

(** ** The dispatch *)

Section Dispatch.
Variable JobStatus : Type.
Context `{Scalars}.

Import ModelQualityDTO.

Lemma falsy_nonempty (d : kwargs) : d ≠ ∅ -> falsy (Some d) = false.
Proof.
  intros Hd. unfold falsy. apply Nat.eqb_neq.
  intros Hsize. apply Hd. by apply map_size_empty_iff.
Qed.

Lemma from_dict_nonempty ds mt (js : JobStatus) (d : kwargs) :
  d ≠ ∅ ->
  from_dict JobStatus ds mt js (Some d)
  = result_map (fun q => mk JobStatus js (Some q))
      (_create_model_quality mt ds d).
Proof. intros Hd. unfold from_dict. by rewrite falsy_nonempty. Qed.

(** C1. On a non-empty mapping [from_dict] returns what the constructor of
    the class fixed by (model_type, dataset_type) returns, wrapped in the
    DTO: BinaryClassificationModelQuality for (BINARY, REFERENCE),
    CurrentBinaryClassificationModelQuality for (BINARY, CURRENT),
    MultiClassificationModelQuality for MULTI_CLASS,
    RegressionModelQuality for (REGRESSION, REFERENCE) and
    CurrentRegressionModelQuality for (REGRESSION, CURRENT). *)
Theorem from_dict_selects_shape (js : JobStatus) (d : kwargs) :
  d ≠ ∅ ->
  from_dict JobStatus REFERENCE BINARY js (Some d)
  = result_map
      (fun q => mk JobStatus js (Some (IsBinaryClassificationModelQuality q)))
      (construct (BinaryClassificationModelQuality.validate d))
  /\ from_dict JobStatus CURRENT BINARY js (Some d)
     = result_map
         (fun q =>
            mk JobStatus js
              (Some (IsCurrentBinaryClassificationModelQuality q)))
         (construct (CurrentBinaryClassificationModelQuality.validate d))
  /\ (forall ds,
        from_dict JobStatus ds MULTI_CLASS js (Some d)
        = result_map
            (fun q =>
               mk JobStatus js (Some (IsMultiClassificationModelQuality q)))
            (construct (MultiClassificationModelQuality.validate d)))
  /\ from_dict JobStatus REFERENCE REGRESSION js (Some d)
     = result_map
         (fun q => mk JobStatus js (Some (IsRegressionModelQuality q)))
         (construct (RegressionModelQuality.validate d))
  /\ from_dict JobStatus CURRENT REGRESSION js (Some d)
     = result_map
         (fun q =>
            mk JobStatus js (Some (IsCurrentRegressionModelQuality q)))
         (construct (CurrentRegressionModelQuality.validate d)).
Proof.
  intros Hd. repeat split; intros; rewrite from_dict_nonempty by assumption;
    simpl; match goal with |- context [construct ?c] => destruct c end;
    reflexivity.
Qed.

(** C2. On a non-empty mapping, a model type outside BINARY, MULTI_CLASS,
    REGRESSION makes the construction raise the module's error with the
    message "Invalid model type ...", and a dataset type outside
    REFERENCE, CURRENT does so with "Invalid dataset type ..." for a
    binary or a regression model; [from_dict] raises the same error and
    returns no DTO. *)
Theorem unsupported_enum_raises (js : JobStatus) (d : kwargs) :
  d ≠ ∅ ->
  (forall rendered ds,
      _create_model_quality (UnsupportedModelType rendered) ds d
      = Raise (MetricsInternalError ("Invalid model type " ++ rendered))
      /\ from_dict JobStatus ds (UnsupportedModelType rendered) js (Some d)
         = Raise (MetricsInternalError ("Invalid model type " ++ rendered)))
  /\ (forall rendered mt,
        mt = BINARY \/ mt = REGRESSION ->
        _create_model_quality mt (UnsupportedDatasetType rendered) d
        = Raise (MetricsInternalError ("Invalid dataset type " ++ rendered))
        /\ from_dict JobStatus (UnsupportedDatasetType rendered) mt js
             (Some d)
           = Raise
               (MetricsInternalError ("Invalid dataset type " ++ rendered))).
Proof.
  intros Hd. split.
  - intros rendered ds. split; [reflexivity |].
    by rewrite from_dict_nonempty.
  - intros rendered mt [-> | ->]; (split; [reflexivity |]);
      by rewrite from_dict_nonempty.
Qed.

(** C9. When the mapping is [None] or empty, [from_dict] returns the DTO
    with the given job status and no model quality, whatever the model type
    and the dataset type are, unsupported values included. *)
Theorem from_dict_empty ds mt (js : JobStatus) (data : option kwargs) :
  data = None \/ data = Some ∅ ->
  from_dict JobStatus ds mt js data = Ok (mk JobStatus js None).
Proof. intros [-> | ->]; reflexivity. Qed.

(** C10. For MULTI_CLASS the construction does not look at the dataset
    type: it is the MultiClassificationModelQuality constructor applied to
    the mapping, the same for any two dataset types, and it never raises
    the module's own (invalid dataset type) error. *)
Theorem multi_class_ignores_dataset_type ds ds' (d : kwargs) :
  _create_model_quality MULTI_CLASS ds d
  = _create_model_quality MULTI_CLASS ds' d
  /\ _create_model_quality MULTI_CLASS ds d
     = result_map IsMultiClassificationModelQuality
         (construct (MultiClassificationModelQuality.validate d))
  /\ forall msg,
      _create_model_quality MULTI_CLASS ds d
      <> Raise (MetricsInternalError msg).
Proof.
  repeat split. intros msg. simpl.
  destruct (MultiClassificationModelQuality.validate d); discriminate.
Qed.

(** C8, as the code has it. For every model type and dataset type: a field
    without default that the mapping has neither under its alias nor under
    its name makes the construction raise pydantic's ValidationError; a
    key that is no field of the selected class is not read, so that the
    mapping with it gives the result of the mapping without it. *)
Theorem missing_required_fails_extra_ignored mt ds (d : kwargs) :
  (forall n,
      n ∈ selected_required_names mt ds ->
      field ByAliasOrName n d = None ->
      _create_model_quality mt ds d = Raise ValidationError)
  /\ (forall k v,
        extra_key ByAliasOrName (selected_names mt ds) k ->
        _create_model_quality mt ds (<[k:=v]> d)
        = _create_model_quality mt ds d).
Proof.
  split.
  - intros n Hn Hmiss.
    destruct mt as [| | |?], ds as [| |?]; simpl in *;
      try (apply elem_of_nil in Hn; contradiction).
    + by rewrite (BinaryClassificationModelQuality_missing n d).
    + by rewrite (CurrentBinaryClassificationModelQuality_missing n d).
    + by rewrite (MultiClassificationModelQuality_missing n d).
    + by rewrite (MultiClassificationModelQuality_missing n d).
    + by rewrite (MultiClassificationModelQuality_missing n d).
    + by rewrite (CurrentRegressionModelQuality_missing n d).
  - intros k v Hk.
    destruct mt as [| | |?], ds as [| |?]; simpl in *; try reflexivity.
    + by rewrite BinaryClassificationModelQuality_extra.
    + by rewrite CurrentBinaryClassificationModelQuality_extra.
    + by rewrite MultiClassificationModelQuality_extra.
    + by rewrite MultiClassificationModelQuality_extra.
    + by rewrite MultiClassificationModelQuality_extra.
    + by rewrite RegressionModelQuality_extra.
    + by rewrite CurrentRegressionModelQuality_extra.
Qed.
End Dispatch.

(** ** The statements at concrete mappings *)

Lemma reference_regression_data_nonempty : reference_regression_data ≠ ∅.
Proof.
  intros Hd. apply (f_equal (fun m : kwargs => m !! "r2")) in Hd.
  vm_compute in Hd. discriminate.
Qed.

Lemma from_dict_selects_shape_witness :
  ModelQualityDTO.from_dict (H := exact_scalars) string REFERENCE REGRESSION
    "SUCCEEDED" (Some reference_regression_data)
  = result_map
      (fun q =>
         ModelQualityDTO.mk string "SUCCEEDED"
           (Some (IsRegressionModelQuality q)))
      (construct
         (RegressionModelQuality.validate (H := exact_scalars)
            reference_regression_data)).
Proof.
  apply (from_dict_selects_shape string (H := exact_scalars) "SUCCEEDED"
           reference_regression_data reference_regression_data_nonempty).
Defined.

Lemma unsupported_enum_raises_witness :
  ModelQualityDTO.from_dict (H := exact_scalars) string
    (UnsupportedDatasetType "DatasetType.OTHER") BINARY "SUCCEEDED"
    (Some reference_regression_data)
  = Raise (MetricsInternalError "Invalid dataset type DatasetType.OTHER").
Proof.
  apply (proj2 (unsupported_enum_raises string (H := exact_scalars) "SUCCEEDED"
                  reference_regression_data
                  reference_regression_data_nonempty)).
  left. reflexivity.
Defined.

Lemma from_dict_empty_witness :
  ModelQualityDTO.from_dict (H := exact_scalars) string
    (UnsupportedDatasetType "DatasetType.OTHER")
    (UnsupportedModelType "ModelType.OTHER") "SUCCEEDED" (Some ∅)
  = Ok (ModelQualityDTO.mk string "SUCCEEDED" None).
Proof.
  apply (from_dict_empty string (H := exact_scalars)). right. reflexivity.
Defined.

(** C8 as stated fails: a mapping with a key outside the schema of the
    selected class constructs the instance, the key being dropped. *)
Lemma extra_field_is_admitted :
  reference_regression_data_extra !! "unexpected" = Some (VStr "x")
  /\ extra_key ByAliasOrName (selected_names REGRESSION REFERENCE) "unexpected"
  /\ ModelQualityDTO._create_model_quality (H := exact_scalars)
       REGRESSION REFERENCE reference_regression_data_extra
     = Ok (IsRegressionModelQuality
             (BaseRegressionMetrics.mk (Some 0.5%float) (Some 2%float)
                None None None None None)).
Proof.
  split; [| split].
  - vm_compute. reflexivity.
  - unfold extra_key. apply (bool_decide_unpack _). vm_compute. reflexivity.
  - vm_compute. reflexivity.
Qed.

Lemma missing_required_fails_extra_ignored_witness :
  ModelQualityDTO._create_model_quality (H := exact_scalars)
    REGRESSION CURRENT reference_regression_data
  = Raise ValidationError
  /\ ModelQualityDTO._create_model_quality (H := exact_scalars)
       REGRESSION REFERENCE
       (<[ "unexpected" := VStr "x" ]> reference_regression_data)
     = ModelQualityDTO._create_model_quality (H := exact_scalars)
         REGRESSION REFERENCE reference_regression_data.
Proof.
  split.
  - apply (proj1 (missing_required_fails_extra_ignored (H := exact_scalars)
                    REGRESSION CURRENT reference_regression_data)
             "grouped_metrics").
    + apply (bool_decide_unpack _). vm_compute. reflexivity.
    + vm_compute. reflexivity.
  - apply (proj2 (missing_required_fails_extra_ignored (H := exact_scalars)
                    REGRESSION REFERENCE reference_regression_data)).
    unfold extra_key. apply (bool_decide_unpack _). vm_compute. reflexivity.
Defined.

(** * Part II: the regression fixtures *)

(** ** Statistics *)

Example float_of_Z_1400 : float_of_Z 1400 = 1400%float.
Proof. reflexivity. Qed.

(** C6. Whenever the statistics of a dataset are computed, the two
    percentages are the quotients 100*missing_cells/(n_variables *
    n_observations) and 100*duplicate_rows/n_observations of Python, which
    is what the test asserts; for 14 columns, 100 rows, 7 missing cells and
    2 duplicate rows the statistics are those the test expects, with the
    percentages 0.5 and 2.0. *)
Theorem statistics_percentages
    (n_variables n_observations missing_cells duplicate_rows : Z)
    (numeric categorical datetime : Z) (s : Statistics.t) :
  calculate_statistics n_variables n_observations missing_cells
    duplicate_rows numeric categorical datetime = Some s ->
  truediv (100 * Statistics.missing_cells s)
    (Statistics.n_variables s * Statistics.n_observations s)
  = Some (Statistics.missing_cells_perc s)
  /\ truediv (100 * Statistics.duplicate_rows s) (Statistics.n_observations s)
     = Some (Statistics.duplicate_rows_perc s)
  /\ calculate_statistics 14 100 7 2 13 0 1 = Some expected_statistics
  /\ Statistics.missing_cells_perc expected_statistics = 0.5%float
  /\ Statistics.duplicate_rows_perc expected_statistics = 2%float
  /\ missing_cells_perc_consistent expected_statistics = true
  /\ duplicate_rows_perc_consistent expected_statistics = true.
Proof.
  intros Hs. unfold calculate_statistics in Hs.
  destruct (truediv (100 * missing_cells) (n_variables * n_observations))
    as [mp |] eqn:Hmp; [| discriminate].
  destruct (truediv (100 * duplicate_rows) n_observations)
    as [dp |] eqn:Hdp; [| discriminate].
  simpl in Hs. injection Hs as <-. simpl.
  repeat split; try assumption; vm_compute; reflexivity.
Qed.

Lemma statistics_percentages_witness :
  truediv (100 * Statistics.missing_cells expected_statistics)
    (Statistics.n_variables expected_statistics
     * Statistics.n_observations expected_statistics)
  = Some (Statistics.missing_cells_perc expected_statistics).
Proof.
  apply (statistics_percentages 14 100 7 2 13 0 1 expected_statistics).
  vm_compute. reflexivity.
Defined.

(** ** Grouped series: one point per bucket that has a row, ascending *)

Section GroupedSeries.
Import ModelQualityCalculator.

Context {Timestamp : Type} (floor : Timestamp -> Z) (p : Z).

Abbreviation group := (list (Z * list (float * float))).

Lemma add_observation_keys b o (g : group) x :
  x ∈ map fst (add_observation b o g) <-> x = b \/ x ∈ map fst g.
Proof.
  induction g as [| [b' os] g IH]; simpl.
  - set_solver.
  - destruct (Z.ltb_spec b b'); simpl; [set_solver |].
    destruct (Z.eqb_spec b b'); simpl; [set_solver |].
    rewrite !elem_of_cons, IH. tauto.
Qed.

Lemma add_observation_HdRel a b o (g : group) :
  (a < b)%Z -> HdRel Z.lt a (map fst g) ->
  HdRel Z.lt a (map fst (add_observation b o g)).
Proof.
  intros Hab Hg. destruct g as [| [b' os] g]; simpl.
  - by constructor.
  - destruct (Z.ltb_spec b b'); simpl; [by constructor |].
    destruct (Z.eqb_spec b b'); simpl; inversion Hg; by constructor.
Qed.

Lemma add_observation_Sorted b o (g : group) :
  Sorted Z.lt (map fst g) -> Sorted Z.lt (map fst (add_observation b o g)).
Proof.
  induction g as [| [b' os] g IH]; simpl; intros Hs.
  - repeat constructor.
  - inversion Hs as [| ? ? Hs' Hhd]; subst.
    destruct (Z.ltb_spec b b'); simpl.
    + constructor; [assumption | by constructor].
    + destruct (Z.eqb_spec b b'); simpl; [by constructor |].
      constructor; [by apply IH |].
      apply add_observation_HdRel; [lia | assumption].
Qed.

Lemma Sorted_lt_not_in a (l : list Z) :
  Sorted Z.lt (a :: l) -> a ∉ l.
Proof.
  intros Hs%Sorted_StronglySorted; [| intros ???; lia].
  inversion Hs as [| ? ? _ Hall]; subst.
  rewrite Forall_forall in Hall. intros Hin. specialize (Hall _ Hin). lia.
Qed.

Lemma rows_of_absent b (g : group) : b ∉ map fst g -> rows_of b g = [].
Proof.
  unfold rows_of. induction g as [| [b' os] g IH]; simpl; [done |].
  intros Hb. rewrite filter_cons. simpl.
  destruct (decide (b' = b)) as [-> | Hne]; [set_solver |].
  apply IH. set_solver.
Qed.

Lemma rows_of_add_observation b b' o (g : group) :
  Sorted Z.lt (map fst g) ->
  rows_of b (add_observation b' o g)
  = rows_of b g ++ (if decide (b' = b) then [o] else []).
Proof.
  induction g as [| [b'' os] g IH]; simpl; intros Hs.
  - unfold rows_of. rewrite filter_cons. simpl.
    destruct (decide (b' = b)); reflexivity.
  - destruct (Z.ltb_spec b' b'').
    + unfold rows_of. rewrite !filter_cons. simpl.
      destruct (decide (b' = b)) as [-> | Hne].
      * destruct (decide (b'' = b)); [lia |]. simpl.
        assert (Hb : b ∉ map fst g).
        { intros Hin. apply Sorted_StronglySorted in Hs; [| intros ???; lia].
          inversion Hs as [| ? ? _ Hall]; subst.
          rewrite Forall_forall in Hall. specialize (Hall _ Hin). lia. }
        fold (rows_of b g). by rewrite (rows_of_absent b g Hb).
      * by rewrite app_nil_r.
    + destruct (Z.eqb_spec b' b'') as [<- | Hne'].
      * unfold rows_of. rewrite !filter_cons. simpl.
        destruct (decide (b' = b)) as [-> | Hne]; simpl.
        -- fold (rows_of b g).
           rewrite (rows_of_absent b g (Sorted_lt_not_in _ _ Hs)).
           by rewrite !app_nil_r.
        -- by rewrite app_nil_r.
      * inversion Hs as [| ? ? Hs' Hhd]; subst.
        unfold rows_of in *. rewrite !filter_cons. simpl.
        destruct (decide (b'' = b)); simpl; rewrite IH by assumption;
          by rewrite ?app_assoc.
Qed.

(** The invariants of the fold that builds the buckets. *)
Lemma fold_add_Sorted (l : list (Z * (float * float))) (g : group) :
  Sorted Z.lt (map fst g) ->
  Sorted Z.lt
    (map fst (fold_left (fun g bo => add_observation (fst bo) (snd bo) g) l g)).
Proof.
  revert g. induction l as [| [b o] l IH]; simpl; intros g Hs; [done |].
  apply IH. by apply add_observation_Sorted.
Qed.

Lemma fold_add_keys (l : list (Z * (float * float))) (g : group) x :
  x ∈ map fst (fold_left (fun g bo => add_observation (fst bo) (snd bo) g) l g)
  <-> x ∈ map fst l \/ x ∈ map fst g.
Proof.
  revert g. induction l as [| [b o] l IH]; simpl; intros g.
  - set_solver.
  - rewrite IH, add_observation_keys, elem_of_cons. tauto.
Qed.

Lemma fold_add_rows_of (l : list (Z * (float * float))) (g : group) b :
  Sorted Z.lt (map fst g) ->
  rows_of b (fold_left (fun g bo => add_observation (fst bo) (snd bo) g) l g)
  = rows_of b g ++ map snd (filter (fun bo => fst bo = b) l).
Proof.
  revert g. induction l as [| [b' o] l IH]; simpl; intros g Hs.
  - by rewrite app_nil_r.
  - rewrite IH by (by apply add_observation_Sorted).
    rewrite rows_of_add_observation by assumption.
    rewrite filter_cons. simpl.
    destruct (decide (b' = b)); simpl; by rewrite <- ?app_assoc, ?app_nil_r.
Qed.

Lemma rows_of_elem b os (g : group) :
  Sorted Z.lt (map fst g) -> (b, os) ∈ g -> rows_of b g = os.
Proof.
  induction g as [| [b' os'] g IH]; simpl; intros Hs Hin.
  - by apply elem_of_nil in Hin.
  - unfold rows_of. rewrite filter_cons. simpl.
    apply elem_of_cons in Hin as [Heq | Hin].
    + injection Heq as <- <-. rewrite decide_True by done. simpl.
      fold (rows_of b g).
      rewrite (rows_of_absent b g (Sorted_lt_not_in _ _ Hs)).
      by rewrite app_nil_r.
    + assert (Hb : b ∈ map fst g).
      { apply list_elem_of_fmap. by exists (b, os). }
      destruct (decide (b' = b)) as [-> | Hne].
      * by destruct (Sorted_lt_not_in _ _ Hs).
      * apply IH; [| assumption]. by inversion Hs.
Qed.

(** The buckets in ascending order of their start. *)
Lemma buckets_Sorted (rows : list (Row Timestamp)) :
  Sorted Z.lt (map fst (buckets Timestamp floor rows)).
Proof. apply fold_add_Sorted. constructor. Qed.

(** A bucket is listed exactly when a row with both values falls in it. *)
Lemma buckets_keys (rows : list (Row Timestamp)) b :
  b ∈ map fst (buckets Timestamp floor rows)
  <-> b ∈ map fst (observations Timestamp floor rows).
Proof. unfold buckets. rewrite fold_add_keys. set_solver. Qed.

(** A bucket holds the rows that fall in it, in the order of the dataset,
    and nothing of the other buckets. *)
Lemma buckets_rows (rows : list (Row Timestamp)) b os :
  (b, os) ∈ buckets Timestamp floor rows ->
  os = map snd (filter (fun bo => fst bo = b)
                  (observations Timestamp floor rows)).
Proof.
  intros Hin.
  rewrite <- (rows_of_elem b os _ (buckets_Sorted rows) Hin).
  unfold buckets. rewrite fold_add_rows_of by constructor. reflexivity.
Qed.

Lemma series_keys f (rows : list (Row Timestamp)) :
  map fst (series Timestamp floor p f rows)
  = map fst (buckets Timestamp floor rows).
Proof.
  unfold series. rewrite map_map. reflexivity.
Qed.
End GroupedSeries.

(** ** Regression model quality *)

Section RegressionQuality.
Import ModelQualityCalculator.

Context {Timestamp : Type} (floor : Timestamp -> Z) (p : Z).

Lemma observations_keys (rows : list (Row Timestamp)) b :
  b ∈ map fst (observations Timestamp floor rows)
  <-> exists r,
      r ∈ rows /\ is_Some (target Timestamp r)
      /\ is_Some (prediction Timestamp r)
      /\ floor (timestamp Timestamp r) = b.
Proof.
  unfold observations. rewrite list_elem_of_fmap. split.
  - intros [[b' o] [-> Hin]]. apply list_elem_of_omap in Hin as [r [Hr Hobs]].
    exists r. unfold observation in Hobs.
    destruct (target Timestamp r) as [y |]; [| discriminate].
    destruct (prediction Timestamp r) as [y' |]; [| discriminate].
    simpl in Hobs. injection Hobs as <- <-. eauto.
  - intros [r (Hr & [y Hy] & [y' Hy'] & <-)].
    exists (floor (timestamp Timestamp r), (y, y')). split; [reflexivity |].
    apply list_elem_of_omap. exists r. split; [assumption |].
    unfold observation. rewrite Hy, Hy'. reflexivity.
Qed.

(** C5. In every regression computation the reported rmse is the square
    root of the reported mse: in the global bundle, and point by point in
    the grouped series, whose rmse series is the mse series under sqrt. The
    values the test expects agree in binary64: sqrt of the global mse is the
    global rmse, and sqrt of each monthly mse is the monthly rmse, bit for
    bit. *)
Theorem rmse_is_sqrt_mse (rows : list (Row Timestamp)) :
  RegressionMetrics.rmse (global_metrics Timestamp floor p rows)
  = PrimFloat.sqrt
      (RegressionMetrics.mse (global_metrics Timestamp floor p rows))
  /\ series Timestamp floor p RegressionMetrics.rmse rows
     = map (fun bv => (fst bv, PrimFloat.sqrt (snd bv)))
         (series Timestamp floor p RegressionMetrics.mse rows)
  /\ PrimFloat.sqrt
       (RegressionMetrics.mse
          (RegressionModelQualityReport.global_metrics expected_model_quality))
     = RegressionMetrics.rmse
         (RegressionModelQualityReport.global_metrics expected_model_quality)
  /\ map (fun pt =>
            Point.mk (Point.timestamp pt) (PrimFloat.sqrt (Point.value pt)))
       (GroupedRegressionMetrics.mse
          (RegressionModelQualityReport.grouped_metrics
             expected_model_quality))
     = GroupedRegressionMetrics.rmse
         (RegressionModelQualityReport.grouped_metrics expected_model_quality).
Proof.
  split; [reflexivity |]. split.
  - unfold series. rewrite map_map. apply map_ext. intros [b os]. reflexivity.
  - split; vm_compute; reflexivity.
Qed.

(** The grouped series list the buckets in strictly ascending order of their
    start, and list a bucket exactly when a row with target and prediction
    falls in it. *)
Lemma series_one_point_per_bucket f (rows : list (Row Timestamp)) :
  let starts := map fst (series Timestamp floor p f rows) in
  StronglySorted Z.lt starts
  /\ forall b,
      b ∈ starts
      <-> exists r,
          r ∈ rows /\ is_Some (target Timestamp r)
          /\ is_Some (prediction Timestamp r)
          /\ floor (timestamp Timestamp r) = b.
Proof.
  cbv zeta. rewrite series_keys. split.
  - apply Sorted_StronglySorted; [intros ???; lia |].
    apply buckets_Sorted.
  - intros b. rewrite buckets_keys. apply observations_keys.
Qed.
End RegressionQuality.

(** ** Histograms *)

(** *** The order of binary64 *)

Lemma SFltb_rank (x y : spec_float) : SFltb x y = ltb3 (rank x) (rank y).
Proof.
  unfold SFltb, ltb3.
  destruct x as [[] | [] | | [] mx ex], y as [[] | [] | | [] my ey];
    cbn [SFcompare rank]; try reflexivity;
    match goal with
    | |- _ = bool_decide ?P =>
        destruct (bool_decide_reflect P) as [HP | HP]; unfold lt3 in HP;
        cbn [fst snd] in HP
    end;
    try (destruct (Z.compare_spec ex ey);
         try destruct (Pos.compare_spec mx my);
         rewrite ?Pos.compare_cont_spec; cbn [CompOpp Pos.switch_Eq]);
    repeat match goal with
           | |- context [Pos.compare ?a ?b] =>
               destruct (Pos.compare_spec a b); cbn [CompOpp]
           end;
    try reflexivity; exfalso; lia.
Qed.

Lemma SFleb_rank (x y : spec_float) : SFleb x y = leb3 (rank x) (rank y).
Proof.
  unfold SFleb, leb3.
  destruct x as [[] | [] | | [] mx ex], y as [[] | [] | | [] my ey];
    cbn [SFcompare rank]; try reflexivity;
    match goal with
    | |- _ = bool_decide ?P =>
        destruct (bool_decide_reflect P) as [HP | HP]; unfold le3 in HP;
        cbn [fst snd] in HP
    end;
    try (destruct (Z.compare_spec ex ey);
         try destruct (Pos.compare_spec mx my);
         rewrite ?Pos.compare_cont_spec; cbn [CompOpp Pos.switch_Eq]);
    repeat match goal with
           | |- context [Pos.compare ?a ?b] =>
               destruct (Pos.compare_spec a b); cbn [CompOpp]
           end;
    try reflexivity; exfalso; lia.
Qed.

Lemma ltb_rank (x y : float) :
  (x <? y)%float = ltb3 (rank (Prim2SF x)) (rank (Prim2SF y)).
Proof. rewrite ltb_spec. apply SFltb_rank. Qed.

Lemma leb_rank (x y : float) :
  (x <=? y)%float = leb3 (rank (Prim2SF x)) (rank (Prim2SF y)).
Proof. rewrite leb_spec. apply SFleb_rank. Qed.

(** Comparisons of binary64 values, decided on their ranks. *)
Ltac float_order :=
  repeat match goal with
         | H : @eq bool _ _ |- _ => revert H
         end;
  rewrite ?ltb_rank, ?leb_rank;
  repeat match goal with
         | |- context [rank (Prim2SF ?x)] =>
             generalize (rank (Prim2SF x)); intros [[[? ?] ?] |]
         end;
  cbn [ltb3 leb3];
  repeat case_bool_decide;
  unfold lt3, le3 in *; cbn [fst snd andb orb negb Z.b2z] in *;
  intros; try reflexivity; try discriminate; try (exfalso; lia).



Lemma leb_number_r (x y : float) :
  (x <=? y)%float = true -> (y <=? y)%float = true.
Proof. intros H. float_order. Qed.

Section HistogramProofs.
Import HistogramBuilder.




(** *** Counting *)











(** *** Edges *)




End HistogramProofs.

(** ** Drift fixtures *)

(** The two columns [test_drift_regression_chi] expects under the CHI2
    test: a value of 0.0 comes with a positive verdict, a value of about
    0.24 with a negative one. *)
Lemma expected_chi2_drift :
  chi2_columns expected_drift_regression_chi
  = [FeatureDrift.mk "Sex" (DriftCalc.mk CHI2 0 true);
     FeatureDrift.mk "pred_id"
       (DriftCalc.mk CHI2 0.2397280792131291 false)].
Proof. vm_compute. reflexivity. Qed.

(** * Further properties of the constructors and of the dispatch *)

(** ** A constructor reads the mapping through its fields only *)

Ltac in_names :=
  cbv; repeat first [ apply list_elem_of_here | apply list_elem_of_further ].

Section SameFields.
Context `{Scalars}.

Lemma MetricsBase_same_fields (d d' : kwargs) :
  (forall n, n ∈ MetricsBase.names ->
             field ByAliasOrName n d = field ByAliasOrName n d') ->
  MetricsBase.validate d = MetricsBase.validate d'.
Proof.
  intros Hd. unfold MetricsBase.validate, MetricsBase.cfg.
  rewrite (Hd "f1"), (Hd "accuracy"), (Hd "precision"), (Hd "recall"),
    (Hd "f_measure"), (Hd "weighted_precision"), (Hd "weighted_recall"),
    (Hd "weighted_f_measure"), (Hd "weighted_true_positive_rate"),
    (Hd "weighted_false_positive_rate"), (Hd "true_positive_rate"),
    (Hd "false_positive_rate"), (Hd "area_under_roc"), (Hd "area_under_pr")
    by in_names.
  reflexivity.
Qed.

Lemma BinaryClassificationModelQuality_same_fields (d d' : kwargs) :
  (forall n, n ∈ BinaryClassificationModelQuality.names ->
             field ByAliasOrName n d = field ByAliasOrName n d') ->
  BinaryClassificationModelQuality.validate d
  = BinaryClassificationModelQuality.validate d'.
Proof.
  intros Hd. unfold BinaryClassificationModelQuality.validate,
    BinaryClassificationModelQuality.cfg.
  rewrite (MetricsBase_same_fields d d').
  - rewrite (Hd "true_positive_count"), (Hd "false_positive_count"),
      (Hd "true_negative_count"), (Hd "false_negative_count") by in_names.
    reflexivity.
  - intros n Hn. apply Hd.
    unfold BinaryClassificationModelQuality.names. apply elem_of_app. by left.
Qed.

Lemma CurrentBinaryClassificationModelQuality_same_fields (d d' : kwargs) :
  (forall n, n ∈ CurrentBinaryClassificationModelQuality.names ->
             field ByAliasOrName n d = field ByAliasOrName n d') ->
  CurrentBinaryClassificationModelQuality.validate d
  = CurrentBinaryClassificationModelQuality.validate d'.
Proof.
  intros Hd. unfold CurrentBinaryClassificationModelQuality.validate,
    CurrentBinaryClassificationModelQuality.cfg.
  rewrite (Hd "global_metrics"), (Hd "grouped_metrics") by in_names.
  reflexivity.
Qed.

Lemma MultiClassificationModelQuality_same_fields (d d' : kwargs) :
  (forall n, n ∈ MultiClassificationModelQuality.names ->
             field ByAliasOrName n d = field ByAliasOrName n d') ->
  MultiClassificationModelQuality.validate d
  = MultiClassificationModelQuality.validate d'.
Proof.
  intros Hd. unfold MultiClassificationModelQuality.validate,
    MultiClassificationModelQuality.cfg.
  rewrite (Hd "classes"), (Hd "class_metrics"), (Hd "global_metrics")
    by in_names.
  reflexivity.
Qed.

Lemma RegressionModelQuality_same_fields (d d' : kwargs) :
  (forall n, n ∈ RegressionModelQuality.names ->
             field ByAliasOrName n d = field ByAliasOrName n d') ->
  RegressionModelQuality.validate d = RegressionModelQuality.validate d'.
Proof.
  intros Hd. unfold RegressionModelQuality.validate,
    BaseRegressionMetrics.validate, BaseRegressionMetrics.cfg.
  rewrite (Hd "r2"), (Hd "mae"), (Hd "mse"), (Hd "variance"), (Hd "mape"),
    (Hd "rmse"), (Hd "adj_r2") by in_names.
  reflexivity.
Qed.

Lemma CurrentRegressionModelQuality_same_fields (d d' : kwargs) :
  (forall n, n ∈ CurrentRegressionModelQuality.names ->
             field ByAliasOrName n d = field ByAliasOrName n d') ->
  CurrentRegressionModelQuality.validate d
  = CurrentRegressionModelQuality.validate d'.
Proof.
  intros Hd. unfold CurrentRegressionModelQuality.validate,
    CurrentRegressionModelQuality.cfg.
  rewrite (Hd "global_metrics"), (Hd "grouped_metrics") by in_names.
  reflexivity.
Qed.

Lemma create_same_fields mt ds (d d' : kwargs) :
  (forall n, n ∈ selected_names mt ds ->
             field ByAliasOrName n d = field ByAliasOrName n d') ->
  ModelQualityDTO._create_model_quality mt ds d
  = ModelQualityDTO._create_model_quality mt ds d'.
Proof.
  intros Hd. destruct mt as [| | |?], ds as [| |?]; simpl in *;
    try reflexivity.
  - by rewrite (BinaryClassificationModelQuality_same_fields d d').
  - by rewrite (CurrentBinaryClassificationModelQuality_same_fields d d').
  - by rewrite (MultiClassificationModelQuality_same_fields d d').
  - by rewrite (MultiClassificationModelQuality_same_fields d d').
  - by rewrite (MultiClassificationModelQuality_same_fields d d').
  - by rewrite (RegressionModelQuality_same_fields d d').
  - by rewrite (CurrentRegressionModelQuality_same_fields d d').
Qed.

Lemma field_delete_ne c name k (d : kwargs) :
  k ∉ field_keys c name -> field c name (delete k d) = field c name d.
Proof.
  intros Hk. destruct c; simpl in *.
  - rewrite !lookup_delete_ne; [done | |]; intros ->; apply Hk; set_solver.
  - rewrite lookup_delete_ne; [done |]. intros ->. apply Hk. set_solver.
Qed.

(** X1. Two mappings that hold the same value (or none) for every field of
    the class the dispatch selects, read under alias or name, construct the
    same result or fail alike: nothing else of a mapping is looked at. In
    particular a key that is no field of the class can be removed from the
    mapping. *)
Theorem create_reads_fields_only mt ds (d d' : kwargs) :
  (forall n, n ∈ selected_names mt ds ->
             field ByAliasOrName n d = field ByAliasOrName n d') ->
  ModelQualityDTO._create_model_quality mt ds d
  = ModelQualityDTO._create_model_quality mt ds d'
  /\ forall k,
      extra_key ByAliasOrName (selected_names mt ds) k ->
      ModelQualityDTO._create_model_quality mt ds (delete k d)
      = ModelQualityDTO._create_model_quality mt ds d'.
Proof.
  intros Hd. split; [by apply create_same_fields |].
  intros k Hk. apply create_same_fields. intros n Hn.
  rewrite <- (Hd n Hn). apply field_delete_ne.
  by apply (extra_key_elem _ _ _ _ Hk).
Qed.
End SameFields.

(** ** Alias and name *)

Lemma field_same_lookups c m (d d' : kwargs) :
  (forall k, k ∈ field_keys c m -> d' !! k = d !! k) ->
  field c m d' = field c m d.
Proof.
  intros Hk. destruct c; simpl in *.
  - rewrite (Hk (to_camel m)), (Hk m) by set_solver. reflexivity.
  - apply Hk. set_solver.
Qed.

Lemma unambiguous_elem c names m n k :
  unambiguous c names -> m ∈ names -> n ∈ names -> m <> n ->
  k ∈ field_keys c m -> k ∉ field_keys c n.
Proof.
  unfold unambiguous. rewrite Forall_forall. intros Hu Hm Hn Hne Hk.
  specialize (Hu m Hm). rewrite Forall_forall in Hu.
  destruct (Hu n Hn) as [-> | Hdis]; [done |].
  rewrite Forall_forall in Hdis. by apply Hdis.
Qed.

Lemma unambiguous_selected mt ds :
  unambiguous ByAliasOrName (selected_names mt ds).
Proof.
  destruct mt as [| | |?], ds as [| |?];
    apply (bool_decide_unpack _); vm_compute; reflexivity.
Qed.

Section AliasAndName.
Context `{Scalars}.

(** X2. [populate_by_name]: a value given under the name of a field of the
    selected class can be given under the alias of the field instead, with
    the same result. *)
Theorem name_or_alias mt ds (d : kwargs) n v :
  n ∈ selected_names mt ds ->
  d !! to_camel n = None ->
  d !! n = Some v ->
  ModelQualityDTO._create_model_quality mt ds
    (<[to_camel n := v]> (delete n d))
  = ModelQualityDTO._create_model_quality mt ds d.
Proof.
  intros Hn Halias Hname. apply create_same_fields. intros m Hm.
  destruct (decide (m = n)) as [-> | Hne].
  - cbn [field]. rewrite lookup_insert_eq, Halias, Hname. reflexivity.
  - apply field_same_lookups. intros k Hk.
    pose proof (unambiguous_elem _ _ m n k (unambiguous_selected mt ds)
                  Hm Hn Hne Hk) as Hnot.
    cbn [field_keys] in Hnot.
    rewrite lookup_insert_ne by (intros Heq; subst k; apply Hnot; set_solver).
    rewrite lookup_delete_ne by (intros Heq; subst k; apply Hnot; set_solver).
    reflexivity.
Qed.
End AliasAndName.

(** X3. No key feeds two fields: within the class the dispatch selects, a
    key under which one field is read, alias or name, is not a key of any
    other field. *)
Theorem no_key_feeds_two_fields mt ds m n k :
  m ∈ selected_names mt ds -> n ∈ selected_names mt ds ->
  k ∈ field_keys ByAliasOrName m -> k ∈ field_keys ByAliasOrName n ->
  m = n.
Proof.
  intros Hm Hn Hkm Hkn. destruct (decide (m = n)) as [| Hne]; [assumption |].
  exfalso.
  by apply (unambiguous_elem _ _ m n k (unambiguous_selected mt ds) Hm Hn Hne).
Qed.

(** ** What [from_dict] returns and raises *)

Section FromDict.
Variable JobStatus : Type.
Context `{Scalars}.

Import ModelQualityDTO.

(** X4. A non-empty mapping that holds none of the regression fields, only
    other keys, gives for (REGRESSION, REFERENCE) a DTO whose model quality
    is a RegressionModelQuality with every metric absent, not a DTO without
    model quality as the empty mapping does. *)
Theorem regression_reference_defaults (js : JobStatus) (d : kwargs) :
  d ≠ ∅ ->
  (forall n, n ∈ RegressionModelQuality.names ->
             field ByAliasOrName n d = None) ->
  from_dict JobStatus REFERENCE REGRESSION js (Some d)
  = Ok (mk JobStatus js
          (Some (IsRegressionModelQuality no_regression_metrics))).
Proof.
  intros Hd Hnone. rewrite from_dict_nonempty by assumption.
  rewrite (create_same_fields REGRESSION REFERENCE d ∅).
  - reflexivity.
  - intros n Hn. simpl in Hn. rewrite (Hnone n Hn).
    unfold field. by rewrite !lookup_empty.
Qed.

(** X5. A DTO returned by [from_dict] carries the job status it was given,
    and it is without model quality exactly when the mapping was [None] or
    empty. *)
Theorem from_dict_result ds mt (js : JobStatus) data dto :
  from_dict JobStatus ds mt js data = Ok dto ->
  job_status JobStatus dto = js
  /\ (model_quality JobStatus dto = None <-> falsy data = true).
Proof.
  unfold from_dict. destruct (falsy data) eqn:Hf.
  - intros [= <-]. simpl. tauto.
  - destruct data as [d |]; [| discriminate Hf].
    destruct (_create_model_quality mt ds d); simpl; [| discriminate].
    intros [= <-]. simpl. split; [reflexivity |]. split; discriminate.
Qed.

(** X6. [from_dict] raises the module's own error exactly when the mapping
    is neither [None] nor empty and the model type is unsupported, or the
    model is binary or regression and the dataset type is unsupported; the
    message names the offending value. Every other failure is pydantic's
    ValidationError. *)
Theorem module_error_iff_rejected ds mt (js : JobStatus) data msg :
  from_dict JobStatus ds mt js data = Raise (MetricsInternalError msg)
  <-> falsy data = false /\ rejection mt ds = Some msg.
Proof.
  unfold from_dict. destruct (falsy data) eqn:Hf.
  - split; [discriminate | intros [? _]; discriminate].
  - destruct data as [d |]; [| discriminate Hf].
    destruct mt as [| | |?], ds as [| |?]; simpl;
      repeat match goal with
             | |- context [construct ?c] => destruct c; simpl
             end;
      split; try (intros [_ ?]); try intros ?; try discriminate;
      try (split; [reflexivity |]); congruence.
Qed.

(** X7. The class of a constructed model quality tells the pair of enum
    values it was constructed for: the model type always, and the dataset
    type unless the model is multi-class. *)
Theorem shape_determines_pair mt ds (d : kwargs) q :
  _create_model_quality mt ds d = Ok q ->
  fst (selecting_pair q) = mt
  /\ (forall ds', snd (selecting_pair q) = Some ds' -> ds' = ds).
Proof.
  destruct mt as [| | |?], ds as [| |?]; simpl;
    repeat match goal with
           | |- context [construct ?c] => destruct c; simpl
           end;
    intros Hq; try discriminate; injection Hq as <-; simpl;
    (split; [reflexivity | intros ds'; congruence]).
Qed.
End FromDict.

(** ** Optional fields, series and nested classes *)

Lemma optional_None {A} (validate : pyobj -> option A) (o : option pyobj) :
  optional validate o = None
  <-> exists v, o = Some v /\ v <> VNone /\ validate v = None.
Proof.
  split.
  - destruct o as [v |]; [| discriminate].
    destruct v; simpl; try discriminate;
      match goal with
      | |- context [validate ?v] => destruct (validate v) eqn:Hv
      end; try discriminate; intros _; eexists; repeat split; eauto;
      discriminate.
  - intros (v & -> & Hv & Hbad). destruct v; simpl; try rewrite Hbad; done.
Qed.

Lemma required_Some {A} (validate : pyobj -> option A) (o : option pyobj) a :
  required validate o = Some a <-> exists v, o = Some v /\ validate v = Some a.
Proof.
  destruct o as [v |]; simpl; split.
  - eauto.
  - by intros (? & [= <-] & ?).
  - discriminate.
  - by intros (? & ? & _).
Qed.

Lemma model_of_Some {A} (init : kwargs -> option A) (v : pyobj) a :
  model_of init v = Some a <-> exists d, v = VDict d /\ init d = Some a.
Proof.
  destruct v; simpl; split; try discriminate; try by intros (? & ? & _).
  - eauto.
  - by intros (? & [= <-] & ?).
Qed.

Lemma construct_raises {A B} (f : A -> B) (o : option A) :
  result_map f (construct o) = Raise ValidationError <-> o = None.
Proof. destruct o; simpl; split; congruence. Qed.

Section Nested.
Context `{Scalars}.

(** X8. RegressionModelQuality has no field without default, so that its
    construction for (REGRESSION, REFERENCE) fails for one reason only: a
    field of the class is present with a value other than [None] that the
    float validator rejects. *)
Theorem regression_reference_fails_iff (d : kwargs) :
  ModelQualityDTO._create_model_quality REGRESSION REFERENCE d
  = Raise ValidationError
  <-> exists n v,
      n ∈ RegressionModelQuality.names
      /\ field ByAliasOrName n d = Some v
      /\ v <> VNone
      /\ validate_float v = None.
Proof.
  cbn [ModelQualityDTO._create_model_quality
         ModelQualityDTO._create_regression_model_quality].
  rewrite construct_raises.
  unfold RegressionModelQuality.validate,
    BaseRegressionMetrics.validate, BaseRegressionMetrics.cfg.
  split.
  - intros Hq.
    repeat (apply bind_None in Hq as [Hq | (? & _ & Hq)];
            [ apply optional_None in Hq as (v & Hf & ? & ?);
              match type of Hf with
              | field _ ?n _ = _ =>
                  exists n, v; repeat split; [in_names | assumption ..]
              end
            | ]).
    discriminate.
  - intros (n & v & Hn & Hf & Hv & Hbad).
    assert (Hopt : optional validate_float (field ByAliasOrName n d) = None)
      by (apply optional_None; eauto).
    unfold RegressionModelQuality.names, BaseRegressionMetrics.names in Hn.
    repeat (apply elem_of_cons in Hn as [-> | Hn];
            [ rewrite Hopt; skip_binds; try reflexivity | ]).
    by apply elem_of_nil in Hn.
Qed.

(** X10. A series validates as a whole: the value must be a list, every
    element of it a mapping the Distribution constructor accepts, and the
    points come out one per element, in the order of the list. *)
Theorem series_points (v : pyobj) (ps : list Distribution.t) :
  Distribution.series v = Some ps
  <-> exists l,
      v = VList l
      /\ Forall2
           (fun x p =>
              exists d, x = VDict d /\ Distribution.validate d = Some p)
           l ps.
Proof.
  unfold Distribution.series, list_of. split.
  - destruct v; try discriminate. intros Hm. apply mapM_Some in Hm.
    eexists. split; [reflexivity |].
    eapply Forall2_impl; [exact Hm |]. intros x p. apply model_of_Some.
  - intros (l & -> & Hl). apply mapM_Some.
    eapply Forall2_impl; [exact Hl |]. intros x p. apply model_of_Some.
Qed.

Lemma series_length (o : option pyobj) (ps : list Distribution.t) :
  required Distribution.series o = Some ps ->
  exists l, o = Some (VList l) /\ length ps = length l.
Proof.
  intros (v & -> & Hv)%required_Some.
  unfold Distribution.series, list_of in Hv.
  destruct v; try discriminate. apply mapM_Some in Hv.
  eexists. split; [reflexivity |]. symmetry. by eapply Forall2_length.
Qed.

(** X11. A CurrentRegressionModelQuality is constructed only from a mapping
    whose grouped_metrics is itself a mapping holding each of the seven
    series as a list; the series of the instance has as many points as that
    list has elements. *)
Theorem current_regression_needs_all_series (d : kwargs) q :
  CurrentRegressionModelQuality.validate d = Some q ->
  exists gm,
    field ByAliasOrName "grouped_metrics" d = Some (VDict gm)
    /\ Forall
         (fun ns =>
            exists l,
              field ByAliasOrName (fst ns) gm = Some (VList l)
              /\ length
                   (snd ns (CurrentRegressionModelQuality.grouped_metrics q))
                 = length l)
         grouped_regression_series.
Proof.
  unfold CurrentRegressionModelQuality.validate,
    CurrentRegressionModelQuality.cfg. intros Hq.
  apply bind_Some in Hq as (g & _ & Hq).
  apply bind_Some in Hq as (gq & Hgm & Hq). injection Hq as <-.
  apply required_Some in Hgm as (v & Hfield & Hv).
  apply model_of_Some in Hv as (gm & -> & Hv).
  exists gm. split; [assumption |]. simpl.
  unfold GroupedBaseRegressionMetrics.validate,
    GroupedBaseRegressionMetrics.cfg in Hv.
  repeat (apply bind_Some in Hv as (? & ?%series_length & Hv)).
  injection Hv as <-. unfold grouped_regression_series.
  repeat constructor; simpl; assumption.
Qed.

(** X12. A CurrentBinaryClassificationModelQuality is constructed only from
    a mapping whose global_metrics is a mapping holding the four confusion
    counts and whose grouped_metrics is a mapping holding the series
    precision, recall, f_measure, true_positive_rate and
    false_positive_rate as lists. *)
Theorem current_binary_needs_counts_and_series (d : kwargs) q :
  CurrentBinaryClassificationModelQuality.validate d = Some q ->
  exists g gm,
    field ByAliasOrName "global_metrics" d = Some (VDict g)
    /\ field ByAliasOrName "grouped_metrics" d = Some (VDict gm)
    /\ Forall (fun n => is_Some (field ByAliasOrName n g))
         BinaryClassificationModelQuality.required_names
    /\ Forall (fun n => exists l, field ByAliasOrName n gm = Some (VList l))
         GroupedMetricsBase.required_names.
Proof.
  unfold CurrentBinaryClassificationModelQuality.validate,
    CurrentBinaryClassificationModelQuality.cfg. intros Hq.
  apply bind_Some in Hq as (gq & Hg & Hq).
  apply bind_Some in Hq as (gmq & Hgm & Hq). injection Hq as <-.
  apply required_Some in Hg as (v & Hfg & Hv).
  apply model_of_Some in Hv as (g & -> & Hg).
  apply required_Some in Hgm as (v & Hfgm & Hv).
  apply model_of_Some in Hv as (gm & -> & Hgm).
  exists g, gm. repeat split; try assumption.
  - unfold BinaryClassificationModelQuality.validate,
      BinaryClassificationModelQuality.cfg in Hg.
    apply bind_Some in Hg as (? & _ & Hg).
    repeat (apply bind_Some in Hg as (? & (? & ? & _)%required_Some & Hg)).
    unfold BinaryClassificationModelQuality.required_names.
    repeat constructor; eauto.
  - unfold GroupedMetricsBase.validate, GroupedMetricsBase.cfg in Hgm.
    repeat match type of Hgm with
           | (optional _ _ ≫= _) = Some _ =>
               apply bind_Some in Hgm as (? & _ & Hgm)
           | (required _ _ ≫= _) = Some _ =>
               apply bind_Some in Hgm as (? & (? & ? & _)%series_length & Hgm)
           end.
    unfold GroupedMetricsBase.required_names.
    repeat constructor; eauto.
Qed.

Lemma MetricsBase_fails (d : kwargs) :
  MetricsBase.validate d = None
  <-> exists n v,
      n ∈ MetricsBase.names
      /\ field ByAliasOrName n d = Some v
      /\ v <> VNone
      /\ validate_float v = None.
Proof.
  unfold MetricsBase.validate, MetricsBase.cfg. split.
  - intros Hq.
    repeat (apply bind_None in Hq as [Hq | (? & _ & Hq)];
            [ apply optional_None in Hq as (v & Hf & ? & ?);
              match type of Hf with
              | field _ ?n _ = _ =>
                  exists n, v; repeat split; [in_names | assumption ..]
              end
            | ]).
    discriminate.
  - intros (n & v & Hn & Hf & Hv & Hbad).
    assert (Hopt : optional validate_float (field ByAliasOrName n d) = None)
      by (apply optional_None; eauto).
    unfold MetricsBase.names in Hn.
    repeat (apply elem_of_cons in Hn as [-> | Hn];
            [ rewrite Hopt; skip_binds; try reflexivity | ]).
    by apply elem_of_nil in Hn.
Qed.

(** X9. The construction for (BINARY, REFERENCE) fails for two reasons
    only: one of the optional scores is present with a value other than
    [None] that the float validator rejects, or one of the four confusion
    counts is absent or rejected by the int validator. *)
Theorem binary_reference_fails_iff (d : kwargs) :
  ModelQualityDTO._create_model_quality BINARY REFERENCE d
  = Raise ValidationError
  <-> (exists n v,
          n ∈ MetricsBase.names
          /\ field ByAliasOrName n d = Some v
          /\ v <> VNone
          /\ validate_float v = None)
      \/ (exists n,
            n ∈ BinaryClassificationModelQuality.required_names
            /\ required validate_int (field ByAliasOrName n d) = None).
Proof.
  cbn [ModelQualityDTO._create_model_quality
         ModelQualityDTO._create_binary_model_quality].
  rewrite construct_raises. rewrite <- MetricsBase_fails.
  unfold BinaryClassificationModelQuality.validate,
    BinaryClassificationModelQuality.cfg.
  split.
  - intros Hq. apply bind_None in Hq as [Hq | (? & _ & Hq)]; [by left |].
    right.
    repeat (apply bind_None in Hq as [Hq | (? & _ & Hq)];
            [ match type of Hq with
              | required _ (field _ ?n _) = _ =>
                  exists n; split; [in_names | assumption]
              end
            | ]).
    discriminate.
  - intros [Hbase | (n & Hn & Hreq)].
    + rewrite Hbase. reflexivity.
    + unfold BinaryClassificationModelQuality.required_names in Hn.
      repeat (apply elem_of_cons in Hn as [-> | Hn];
              [ rewrite Hreq; skip_binds; try reflexivity | ]).
      by apply elem_of_nil in Hn.
Qed.

(** X13. A MultiClassificationModelQuality is constructed only from a
    mapping whose class_metrics is a list of mappings, each with a
    class_name and with its metrics as a mapping, and whose global_metrics
    is a mapping holding the confusion matrix as a list; the instance has
    one ClassMetrics per element of the list. *)
Theorem multi_class_needs_class_metrics (d : kwargs) q :
  MultiClassificationModelQuality.validate d = Some q ->
  (exists l,
      field ByAliasOrName "class_metrics" d = Some (VList l)
      /\ length (MultiClassificationModelQuality.class_metrics q) = length l
      /\ Forall
           (fun x =>
              exists c m,
                x = VDict c
                /\ is_Some (field ByAliasOrName "class_name" c)
                /\ field ByAliasOrName "metrics" c = Some (VDict m))
           l)
  /\ exists g rows,
      field ByAliasOrName "global_metrics" d = Some (VDict g)
      /\ field ByAliasOrName "confusion_matrix" g = Some (VList rows)
      /\ length
           (GlobalMetrics.confusion_matrix
              (MultiClassificationModelQuality.global_metrics q))
         = length rows.
Proof.
  unfold MultiClassificationModelQuality.validate,
    MultiClassificationModelQuality.cfg. intros Hq.
  apply bind_Some in Hq as (cs & _ & Hq).
  apply bind_Some in Hq as (cms & Hcms & Hq).
  apply bind_Some in Hq as (gm & Hgm & Hq). injection Hq as <-.
  cbn [MultiClassificationModelQuality.class_metrics
         MultiClassificationModelQuality.global_metrics].
  split.
  - apply required_Some in Hcms as (v & Hf & Hv).
    unfold list_of in Hv. destruct v; try discriminate.
    apply mapM_Some in Hv. exists l. split; [assumption |].
    split; [symmetry; by eapply Forall2_length |].
    eapply Forall2_Forall_l; [exact Hv |].
    apply Forall_forall. intros cm _ x Hx.
    apply model_of_Some in Hx as (c & -> & Hc).
    unfold ClassMetrics.validate, ClassMetrics.cfg in Hc.
    apply bind_Some in Hc as (? & (? & Hname & _)%required_Some & Hc).
    apply bind_Some in Hc as (? & (? & Hmetrics & Hm)%required_Some & _).
    apply model_of_Some in Hm as (m & -> & _).
    exists c, m. rewrite Hname. eauto.
  - apply required_Some in Hgm as (v & Hf & Hv).
    apply model_of_Some in Hv as (g & -> & Hg).
    unfold GlobalMetrics.validate, GlobalMetrics.cfg in Hg.
    apply bind_Some in Hg as (? & _ & Hg).
    apply bind_Some in Hg as (cmx & (v & Hcm & Hv)%required_Some & Hg).
    injection Hg as <-. cbn [GlobalMetrics.confusion_matrix].
    unfold list_of in Hv at 1. destruct v; try discriminate.
    apply mapM_Some in Hv. exists g, l. repeat split; try assumption.
    symmetry. by eapply Forall2_length.
Qed.
End Nested.

(** ** Values the constructors take over *)

Section Values.
Context `{Scalars}.

Lemma list_of_strings (l : list string) :
  (forall s, validate_str (VStr s) = Some s) ->
  list_of validate_str (strings_value l) = Some l.
Proof.
  intros Hstr. unfold list_of, strings_value. apply mapM_Some.
  induction l; constructor; auto.
Qed.

Lemma list_of_ints (row : list Z) :
  (forall z, validate_int (VInt z) = Some z) ->
  list_of validate_int (VList (map VInt row)) = Some row.
Proof.
  intros Hint. unfold list_of. apply mapM_Some.
  induction row; constructor; auto.
Qed.

Lemma list_of_matrix (rows : list (list Z)) :
  (forall z, validate_int (VInt z) = Some z) ->
  list_of (list_of validate_int) (matrix_value rows) = Some rows.
Proof.
  intros Hint. unfold matrix_value. cbn [list_of]. apply mapM_Some.
  induction rows; constructor; [by apply list_of_ints | assumption].
Qed.

(** X14. The multi-class constructor checks each field alone, not the
    fields against one another: when the validators take strings and ints
    as they are, it accepts any list of class names with any confusion
    matrix, square or not, of the size of the class list or not, and
    without per-class metrics, and the instance holds exactly these. *)
Theorem multi_class_sizes_unchecked
    (classes : list string) (rows : list (list Z)) ds :
  (forall s, validate_str (VStr s) = Some s) ->
  (forall z, validate_int (VInt z) = Some z) ->
  ModelQualityDTO._create_model_quality MULTI_CLASS ds
    (multi_class_data classes rows)
  = Ok (IsMultiClassificationModelQuality
          (MultiClassificationModelQuality.mk classes []
             (GlobalMetrics.mk no_metrics rows))).
Proof.
  intros Hstr Hint.
  cbn [ModelQualityDTO._create_model_quality].
  unfold MultiClassificationModelQuality.validate,
    MultiClassificationModelQuality.cfg.
  change (field ByAliasOrName "classes" (multi_class_data classes rows))
    with (Some (strings_value classes)).
  change (field ByAliasOrName "class_metrics" (multi_class_data classes rows))
    with (Some (VList [])).
  change (field ByAliasOrName "global_metrics" (multi_class_data classes rows))
    with (Some (VDict ({[ "confusion_matrix" := matrix_value rows ]} : kwargs))).
  cbn [required model_of].
  rewrite (list_of_strings classes Hstr). cbn [mbind option_bind list_of mapM].
  unfold GlobalMetrics.validate, GlobalMetrics.cfg.
  change (MetricsBase.validate
            ({[ "confusion_matrix" := matrix_value rows ]} : kwargs))
    with (Some no_metrics).
  change (field ByAliasOrName "confusion_matrix"
            ({[ "confusion_matrix" := matrix_value rows ]} : kwargs))
    with (Some (matrix_value rows)).
  cbn [required mbind option_bind].
  rewrite (list_of_matrix rows Hint). reflexivity.
Qed.

Lemma RegressionModelQuality_same_optionals (d d' : kwargs) :
  (forall n, n ∈ RegressionModelQuality.names ->
             optional validate_float (field ByAliasOrName n d)
             = optional validate_float (field ByAliasOrName n d')) ->
  RegressionModelQuality.validate d = RegressionModelQuality.validate d'.
Proof.
  intros Hd. unfold RegressionModelQuality.validate,
    BaseRegressionMetrics.validate, BaseRegressionMetrics.cfg.
  rewrite (Hd "r2"), (Hd "mae"), (Hd "mse"), (Hd "variance"), (Hd "mape"),
    (Hd "rmse"), (Hd "adj_r2") by in_names.
  reflexivity.
Qed.

(** X15. For (REGRESSION, REFERENCE) a metric given as [None] reads as a
    metric that is not given: when the mapping has a field of the class
    neither under its alias nor under its name, setting either key to
    [None] leaves the result as it is. *)
Theorem explicit_none_is_absent (d : kwargs) n k :
  n ∈ RegressionModelQuality.names ->
  k ∈ field_keys ByAliasOrName n ->
  (forall k', k' ∈ field_keys ByAliasOrName n -> d !! k' = None) ->
  ModelQualityDTO._create_model_quality REGRESSION REFERENCE
    (<[k := VNone]> d)
  = ModelQualityDTO._create_model_quality REGRESSION REFERENCE d.
Proof.
  intros Hn Hk Hnone.
  cbn [ModelQualityDTO._create_model_quality
         ModelQualityDTO._create_regression_model_quality].
  f_equal. f_equal. apply RegressionModelQuality_same_optionals.
  intros m Hm. destruct (decide (m = n)) as [-> | Hne].
  - rewrite (field_None ByAliasOrName n d Hnone).
    cbn [field field_keys] in *.
    apply elem_of_cons in Hk as [-> | Hk].
    + rewrite lookup_insert_eq. reflexivity.
    + apply elem_of_cons in Hk as [-> | Hk]; [| by apply elem_of_nil in Hk].
      destruct (decide (to_camel n = n)) as [Heq | Hdiff].
      * rewrite Heq, lookup_insert_eq. reflexivity.
      * rewrite lookup_insert_ne by done.
        rewrite (Hnone (to_camel n)) by set_solver.
        rewrite lookup_insert_eq. reflexivity.
  - f_equal. apply field_same_lookups. intros k' Hk'.
    pose proof (unambiguous_elem _ _ m n k'
                  (unambiguous_selected REGRESSION REFERENCE)
                  Hm Hn Hne Hk') as Hnot.
    rewrite lookup_insert_ne by (intros Heq; subst k'; contradiction).
    reflexivity.
Qed.
End Values.

(** ** The further statements at concrete mappings *)

Ltac each_name Hn :=
  repeat (apply elem_of_cons in Hn as [-> | Hn]; [vm_compute; reflexivity |]);
  by apply elem_of_nil in Hn.

Lemma create_reads_fields_only_witness :
  ModelQualityDTO._create_model_quality (H := exact_scalars)
    REGRESSION REFERENCE reference_regression_data
  = ModelQualityDTO._create_model_quality (H := exact_scalars)
      REGRESSION REFERENCE reference_regression_data_extra.
Proof.
  apply (proj1 (create_reads_fields_only (H := exact_scalars)
                  REGRESSION REFERENCE reference_regression_data
                  reference_regression_data_extra
                  ltac:(intros n Hn; each_name Hn))).
Defined.

Lemma name_or_alias_witness :
  ModelQualityDTO._create_model_quality (H := exact_scalars)
    REGRESSION REFERENCE
    (<[to_camel "adj_r2" := VFloat 0.9%float]> (delete "adj_r2" snake_case_data))
  = ModelQualityDTO._create_model_quality (H := exact_scalars)
      REGRESSION REFERENCE snake_case_data.
Proof.
  apply (name_or_alias (H := exact_scalars) REGRESSION REFERENCE
           snake_case_data "adj_r2" (VFloat 0.9%float)).
  - apply (bool_decide_unpack _). vm_compute. reflexivity.
  - vm_compute. reflexivity.
  - vm_compute. reflexivity.
Defined.

Lemma unknown_only_data_nonempty : unknown_only_data ≠ ∅.
Proof.
  intros Hd. apply (f_equal (fun m : kwargs => m !! "unexpected")) in Hd.
  vm_compute in Hd. discriminate.
Qed.

Lemma regression_reference_defaults_witness :
  ModelQualityDTO.from_dict (H := exact_scalars) string REFERENCE REGRESSION
    "SUCCEEDED" (Some unknown_only_data)
  = Ok (ModelQualityDTO.mk string "SUCCEEDED"
          (Some (IsRegressionModelQuality no_regression_metrics))).
Proof.
  apply (regression_reference_defaults string (H := exact_scalars)
           "SUCCEEDED" unknown_only_data unknown_only_data_nonempty).
  intros n Hn. each_name Hn.
Defined.

Lemma from_dict_result_witness :
  ModelQualityDTO.model_quality string
    (ModelQualityDTO.mk string "SUCCEEDED"
       (Some (IsRegressionModelQuality no_regression_metrics))) = None
  <-> ModelQualityDTO.falsy (Some unknown_only_data) = true.
Proof.
  apply (from_dict_result string (H := exact_scalars) REFERENCE REGRESSION
           "SUCCEEDED" (Some unknown_only_data)).
  vm_compute. reflexivity.
Defined.

Lemma module_error_iff_rejected_witness :
  ModelQualityDTO.from_dict (H := exact_scalars) string
    (UnsupportedDatasetType "DatasetType.OTHER") REGRESSION "SUCCEEDED"
    (Some unknown_only_data)
  = Raise (MetricsInternalError "Invalid dataset type DatasetType.OTHER").
Proof.
  apply (proj2 (module_error_iff_rejected string (H := exact_scalars)
                  (UnsupportedDatasetType "DatasetType.OTHER") REGRESSION
                  "SUCCEEDED" (Some unknown_only_data)
                  "Invalid dataset type DatasetType.OTHER")).
  split; vm_compute; reflexivity.
Defined.

Lemma shape_determines_pair_witness :
  fst (selecting_pair (IsRegressionModelQuality no_regression_metrics))
  = REGRESSION.
Proof.
  apply (shape_determines_pair (H := exact_scalars) REGRESSION REFERENCE
           unknown_only_data).
  vm_compute. reflexivity.
Defined.

Lemma regression_reference_fails_iff_witness :
  ModelQualityDTO._create_model_quality (H := exact_scalars)
    REGRESSION REFERENCE bad_regression_data
  = Raise ValidationError.
Proof.
  apply (proj2 (regression_reference_fails_iff (H := exact_scalars)
                  bad_regression_data)).
  exists "r2", (VStr "high"). split; [| split; [| split]].
  - apply (bool_decide_unpack _). vm_compute. reflexivity.
  - vm_compute. reflexivity.
  - discriminate.
  - reflexivity.
Defined.

Lemma series_points_witness :
  exists l,
    VList [example_point; example_point] = VList l
    /\ Forall2
         (fun x p =>
            exists d,
              x = VDict d
              /\ Distribution.validate (H := exact_scalars) d = Some p)
         l
         [Distribution.mk "2011-01-01 00:00:00" (Some 35.5%float);
          Distribution.mk "2011-01-01 00:00:00" (Some 35.5%float)].
Proof.
  apply (proj1 (series_points (H := exact_scalars)
                  (VList [example_point; example_point]) _)).
  vm_compute. reflexivity.
Defined.

Lemma current_regression_needs_all_series_witness :
  exists gm,
    field ByAliasOrName "grouped_metrics" current_regression_data
    = Some (VDict gm)
    /\ exists l,
        field ByAliasOrName "mae" gm = Some (VList l) /\ length l = 2%nat.
Proof.
  destruct (current_regression_needs_all_series (H := exact_scalars)
              current_regression_data _ eq_refl) as (gm & Hgm & Hall).
  exists gm. split; [exact Hgm |].
  apply Forall_cons in Hall as [_ Hall].
  apply Forall_cons in Hall as [(l & Hl & Hlen) _].
  exists l. split; [exact Hl | exact (eq_sym Hlen)].
Defined.

Lemma current_binary_needs_counts_and_series_witness :
  exists g gm,
    field ByAliasOrName "global_metrics" current_binary_data = Some (VDict g)
    /\ field ByAliasOrName "grouped_metrics" current_binary_data
       = Some (VDict gm)
    /\ Forall (fun n => is_Some (field ByAliasOrName n g))
         BinaryClassificationModelQuality.required_names
    /\ Forall (fun n => exists l, field ByAliasOrName n gm = Some (VList l))
         GroupedMetricsBase.required_names.
Proof.
  apply (current_binary_needs_counts_and_series (H := exact_scalars)
           current_binary_data _ eq_refl).
Defined.

Lemma multi_class_sizes_unchecked_witness :
  ModelQualityDTO._create_model_quality (H := exact_scalars) MULTI_CLASS
    CURRENT (multi_class_data ["a"; "b"; "c"] [[1; 2]; [3]]%Z)
  = Ok (IsMultiClassificationModelQuality
          (MultiClassificationModelQuality.mk ["a"; "b"; "c"] []
             (GlobalMetrics.mk no_metrics [[1; 2]; [3]]%Z))).
Proof.
  apply (multi_class_sizes_unchecked (H := exact_scalars)
           ["a"; "b"; "c"] [[1; 2]; [3]]%Z CURRENT);
    intros; reflexivity.
Defined.

Lemma explicit_none_is_absent_witness :
  ModelQualityDTO._create_model_quality (H := exact_scalars)
    REGRESSION REFERENCE (<["adj_r2" := VNone]> reference_regression_data)
  = ModelQualityDTO._create_model_quality (H := exact_scalars)
      REGRESSION REFERENCE reference_regression_data.
Proof.
  apply (explicit_none_is_absent (H := exact_scalars)
           reference_regression_data "adj_r2" "adj_r2").
  - apply (bool_decide_unpack _). vm_compute. reflexivity.
  - apply (bool_decide_unpack _). vm_compute. reflexivity.
  - intros k Hk.
    repeat (apply elem_of_cons in Hk as [-> | Hk]; [vm_compute; reflexivity |]).
    by apply elem_of_nil in Hk.
Defined.

Lemma binary_reference_fails_iff_witness :
  ModelQualityDTO._create_model_quality (H := exact_scalars)
    BINARY REFERENCE reference_regression_data
  = Raise ValidationError.
Proof.
  apply (proj2 (binary_reference_fails_iff (H := exact_scalars)
                  reference_regression_data)).
  right. exists "true_positive_count". split.
  - apply (bool_decide_unpack _). vm_compute. reflexivity.
  - vm_compute. reflexivity.
Defined.

Lemma no_key_feeds_two_fields_witness : "adj_r2" = "adj_r2".
Proof.
  apply (no_key_feeds_two_fields REGRESSION REFERENCE "adj_r2" "adj_r2"
           "adjR2").
  all: try (apply (bool_decide_unpack _); vm_compute; reflexivity).
Defined.

Lemma multi_class_needs_class_metrics_witness :
  exists l,
    field ByAliasOrName "class_metrics" multi_class_metrics_data
    = Some (VList l)
    /\ length l = 2%nat.
Proof.
  destruct (multi_class_needs_class_metrics (H := exact_scalars)
              multi_class_metrics_data _ eq_refl)
    as [(l & Hl & Hlen & _) _].
  exists l. split; [exact Hl | exact (eq_sym Hlen)].
Defined.
